(** * Streaming image-caption dataset: a shallow embedding

    Source: [src/diffusion/datasets/image_caption.py]
    ([StreamingImageCaptionDataset] and
    [build_streaming_image_caption_dataloader]).

    Python dictionaries are finite maps with string keys, exceptions
    are an explicit result type, and the two random generators the
    code draws from ([torch.rand] and [random.sample]) are tapes read
    through a state monad.  The libraries the module calls
    (streaming, PIL, torchvision, transformers) and the two modules of
    the repository it imports (the crop transforms and the SDXL
    tokenizer) are collected in one class of collaborators. *)

From Stdlib Require Import QArith Qround Ascii String.
From stdpp Require Import base strings list gmap pretty.

Set Warnings "-register-all".
Local Open Scope Z_scope.

(** ** Python values, exceptions and results *)

Module Py.

(** A decoded PIL image: mode, [size = (width, height)], pixels. *)
Record PILImage := mkImage {
  im_mode : string;
  im_size : Z * Z;
  im_data : list Z
}.

(** The Python values that reach the module as arguments or as
    fields of a record of the shard source.  Strings are taken over
    the ASCII range. *)
Inductive PyVal :=
| PyNone
| PyBool (b : bool)
| PyInt (z : Z)
| PyStr (s : string)
| PyBytes (b : list Z)
| PyList (l : list PyVal)
| PyImage (i : PILImage).

Inductive PyExc :=
| ValueError (msg : string)
| TypeError (msg : string)
| IndexError
| KeyError (key : string)
| AttributeError (attr : string)
| RuntimeError (msg : string)
| CollaboratorError (who : string)
| Unfinished.

Inductive Result (A : Type) :=
| Ok (a : A)
| Raise (e : PyExc).
Arguments Ok {A} a.
Arguments Raise {A} e.

Definition is_ok {A} (r : Result A) : bool :=
  match r with Ok _ => true | Raise _ => false end.

#[global] Instance Result_ret : MRet Result := λ A x, Ok x.
#[global] Instance Result_bind : MBind Result := λ A B f r,
  match r with Ok a => f a | Raise e => Raise e end.

(** [str.lower()] on the ASCII range: 'A'..'Z' go to 'a'..'z'.  No
    character outside the ASCII range lower-cases to a letter of the
    words the module compares with, so whether the lower-cased string
    is one of them is decided as in Python. *)
Definition lower_char (c : ascii) : ascii :=
  let n := N_of_ascii c in
  if ((65 <=? n) && (n <=? 90))%N then ascii_of_N (n + 32) else c.

Fixpoint lower (s : string) : string :=
  match s with
  | EmptyString => EmptyString
  | String c r => String (lower_char c) (lower r)
  end.

(** [x in [a, b, ...]] for strings. *)
Definition str_in (x : string) (l : list string) : bool :=
  existsb (String.eqb x) l.

(** [isinstance(v, str)], [isinstance(v, List)] and
    [isinstance(v, Sequence)]: [str], [bytes] and [list] are
    registered sequences. *)
Definition isinstance_str (v : PyVal) : bool :=
  match v with PyStr _ => true | _ => false end.

Definition isinstance_List (v : PyVal) : bool :=
  match v with PyList _ => true | _ => false end.

Definition isinstance_Sequence (v : PyVal) : bool :=
  match v with PyStr _ | PyBytes _ | PyList _ => true | _ => false end.

(** [len(v)] *)
Definition len (v : PyVal) : Result Z :=
  match v with
  | PyStr s => Ok (Z.of_nat (String.length s))
  | PyBytes b => Ok (Z.of_nat (length b))
  | PyList l => Ok (Z.of_nat (length l))
  | _ => Raise (TypeError "object has no len()")
  end.

(** [type(v)] as an f-string prints it. *)
Definition type_name (v : PyVal) : string :=
  match v with
  | PyNone => "<class 'NoneType'>"
  | PyBool _ => "<class 'bool'>"
  | PyInt _ => "<class 'int'>"
  | PyStr _ => "<class 'str'>"
  | PyBytes _ => "<class 'bytes'>"
  | PyList _ => "<class 'list'>"
  | PyImage _ => "<class 'PIL.Image.Image'>"
  end.

(** The items [iter(v)] yields: the characters of a string, the
    bytes of a bytes object, the elements of a list. *)
Fixpoint chars (s : string) : list PyVal :=
  match s with
  | EmptyString => []
  | String c r => PyStr (String c EmptyString) :: chars r
  end.

Definition iter (v : PyVal) : Result (list PyVal) :=
  match v with
  | PyStr s => Ok (chars s)
  | PyBytes b => Ok (PyInt <$> b)
  | PyList l => Ok l
  | _ => Raise (TypeError "object is not iterable")
  end.

(** [zip(a, b)] stops at the shorter argument. *)
Fixpoint zip {A B} (a : list A) (b : list B) : list (A * B) :=
  match a, b with
  | x :: a', y :: b' => (x, y) :: zip a' b'
  | _, _ => []
  end.

(** [d[k]] on a dictionary. *)
Definition subscript {V} (d : gmap string V) (k : string) : Result V :=
  match d !! k with
  | Some v => Ok v
  | None => Raise (KeyError k)
  end.

(** [d.setdefault(k, v)] *)
Definition setdefault {V} (k : string) (v : V) (d : gmap string V)
  : gmap string V :=
  match d !! k with
  | Some _ => d
  | None => <[k := v]> d
  end.

(** An exception object that is built by an expression statement and
    never raised: evaluation goes on with [k]. *)
Definition not_raised {A} (e : PyExc) (k : A) : A := k.

End Py.
Export Py.

(** [l[i]] on a Python list, for an index [i >= 0]. *)
Definition list_index {A} (l : list A) (i : nat) : Result A :=
  match l !! i with
  | Some x => Ok x
  | None => Raise IndexError
  end.

(** ** Tensors

    A tensor is its dtype, its shape and its elements in row-major
    order.  Only the operations the module calls are modelled. *)

Module Torch.

Inductive DType := dt_bool | dt_uint8 | dt_int32 | dt_int64 | dt_float32.

#[global] Instance DType_eq_dec : EqDecision DType.
Proof. solve_decision. Defined.

Record Tensor (A : Type) := mkTensor {
  dtype : DType;
  shape : list nat;
  data : list A
}.
Arguments mkTensor {A} dtype shape data.
Arguments dtype {A} t.
Arguments shape {A} t.
Arguments data {A} t.

Definition numel (s : list nat) : nat := foldr Nat.mul 1%nat s.

(** A tensor holds as many elements as its shape says. *)
Definition well_formed {A} (t : Tensor A) : Prop :=
  length (data t) = numel (shape t).

(** [torch.tensor([a, b, ...])] of Python integers. *)
Definition tensor (l : list Z) : Tensor Z :=
  mkTensor dt_int64 [length l] l.

(** [t * c] for a Python integer [c]: the dtype of [t] is kept. *)
Definition mul_scalar (t : Tensor Z) (c : Z) : Tensor Z :=
  mkTensor (dtype t) (shape t) ((λ x, x * c) <$> data t).

(** [t.squeeze()] removes every dimension of size 1. *)
Definition squeeze {A} (t : Tensor A) : Tensor A :=
  mkTensor (dtype t) (filter (λ d, d ≠ 1%nat) (shape t)) (data t).

(** Type promotion between the dtypes above is the larger of the two
    in the order bool, uint8, int32, int64, float32. *)
Definition dtype_rank (d : DType) : nat :=
  match d with
  | dt_bool => 0 | dt_uint8 => 1 | dt_int32 => 2 | dt_int64 => 3
  | dt_float32 => 4
  end%nat.

Definition promote (d1 d2 : DType) : DType :=
  if (dtype_rank d1 <? dtype_rank d2)%nat then d2 else d1.

(** [torch.stack(ts)]: a new leading axis; the list must not be empty
    and all tensors must have one shape. *)
Definition stack {A} (ts : list (Tensor A)) : Result (Tensor A) :=
  match ts with
  | [] => Raise (RuntimeError "stack expects a non-empty TensorList")
  | t :: rest =>
      if forallb (λ u, bool_decide (shape u = shape t)) rest
      then Ok (mkTensor (foldl promote (dtype t) (dtype <$> rest))
                        (length ts :: shape t)
                        (concat (data <$> ts)))
      else Raise (RuntimeError "stack expects each tensor to be equal size")
  end.

(** [t[i]] along the first axis. *)
Definition select0 {A} (t : Tensor A) (i : nat) : Result (Tensor A) :=
  match shape t with
  | [] => Raise IndexError
  | d :: s =>
      if (i <? d)%nat
      then Ok (mkTensor (dtype t) s
                 (take (numel s) (drop (i * numel s) (data t))))
      else Raise IndexError
  end.

(** Iterating over a tensor yields [t[0]], [t[1]], ... *)
Definition unbind {A} (t : Tensor A) : Result (list (Tensor A)) :=
  match shape t with
  | [] => Raise (TypeError "iteration over a 0-d tensor")
  | d :: s =>
      Ok ((λ i, mkTensor (dtype t) s
                  (take (numel s) (drop (i * numel s) (data t))))
          <$> seq 0 d)
  end.

(** [t.shape[-k]] for [k >= 1]. *)
Definition shape_from_end {A} (t : Tensor A) (k : nat) : Result Z :=
  if (k <=? length (shape t))%nat
  then match shape t !! (length (shape t) - k)%nat with
       | Some d => Ok (Z.of_nat d)
       | None => Raise IndexError
       end
  else Raise IndexError.

(** *** Broadcasting *)

(** Shapes are aligned at their last dimension; two sizes are
    compatible when they are equal or one of them is 1. *)
Definition broadcast_dim (a b : nat) : option nat :=
  if decide (a = b) then Some a
  else if decide (a = 1%nat) then Some b
  else if decide (b = 1%nat) then Some a
  else None.

Fixpoint broadcast_rev (r1 r2 : list nat) : option (list nat) :=
  match r1, r2 with
  | [], r => Some r
  | r, [] => Some r
  | a :: r1', b :: r2' =>
      match broadcast_dim a b, broadcast_rev r1' r2' with
      | Some d, Some r => Some (d :: r)
      | _, _ => None
      end
  end.

Definition broadcast_shapes (s1 s2 : list nat) : option (list nat) :=
  reverse <$> broadcast_rev (reverse s1) (reverse s2).

(** All multi-indices of a shape, in row-major order. *)
Fixpoint indices (s : list nat) : list (list nat) :=
  match s with
  | [] => [[]]
  | d :: s' => i ← seq 0 d; (cons i) <$> indices s'
  end.

(** Offset of a multi-index in the row-major data. *)
Fixpoint ravel (s idx : list nat) : nat :=
  match s, idx with
  | _ :: s', i :: idx' => (i * numel s' + ravel s' idx')%nat
  | _, _ => 0%nat
  end.

(** The element of [t] at a multi-index. *)
Definition item {A} (t : Tensor A) (idx : list nat) : option A :=
  data t !! ravel (shape t) idx.

(** The index of the operand element that a multi-index of the
    broadcast result reads: leading axes the operand lacks are
    dropped, and an axis of size 1 is read at 0. *)
Definition broadcast_index (s idx : list nat) : list nat :=
  zip_with (λ d i, if decide (d = 1%nat) then 0%nat else i)
           s (drop (length idx - length s) idx).

Definition nonzero (x : option Z) : bool :=
  match x with Some v => negb (v =? 0) | None => false end.

(** [torch.logical_or(a, b)]: a bool tensor of the broadcast shape. *)
Definition logical_or (a b : Tensor Z) : Result (Tensor bool) :=
  match broadcast_shapes (shape a) (shape b) with
  | None => Raise (RuntimeError "shapes cannot be broadcast")
  | Some s =>
      Ok (mkTensor dt_bool s
            ((λ idx, nonzero (item a (broadcast_index (shape a) idx))
                     || nonzero (item b (broadcast_index (shape b) idx)))
             <$> indices s))
  end.

(** [t.to(d)] on a bool tensor: True is 1 and False is 0 in every
    dtype. *)
Definition bool_to (t : Tensor bool) (d : DType) : Tensor Z :=
  mkTensor d (shape t) ((λ b : bool, if b then 1 else 0) <$> data t).

End Torch.

(** ** Randomness and the monad of a call

    [torch.rand] and Python's [random] are two global generators.
    Each is a tape of raw words and a count of the words consumed.
    [py_fuel] bounds the rejection loop of Python's generator: the
    loop is followed for that many tries, and a call that has not left
    the loop by then has the outcome [Unfinished], which is no
    exception of Python. *)

Record RandomState := mkRandom {
  torch_tape : nat → Z;
  torch_pos : nat;
  py_tape : nat → Z;
  py_pos : nat;
  py_fuel : nat
}.

(** A computation reads and advances the generators and returns a
    value or raises; the generators keep their state when it raises. *)
Definition M (A : Type) : Type := RandomState → Result A * RandomState.

#[global] Instance M_ret : MRet M := λ A x st, (Ok x, st).
#[global] Instance M_bind : MBind M := λ A B f m st,
  match m st with
  | (Ok a, st') => f a st'
  | (Raise e, st') => (Raise e, st')
  end.

Definition lift {A} (r : Result A) : M A := λ st, (r, st).

(** [torch.rand(1)]: a float32 uniform on [0, 1), made of the low 24
    bits of a raw word scaled by 2^-24. *)
Definition rand_value (raw : Z) : Q := Z.land raw (2 ^ 24 - 1) # 16777216.

Definition torch_rand : M Q := λ st,
  (Ok (rand_value (torch_tape st (torch_pos st))),
   mkRandom (torch_tape st) (S (torch_pos st)) (py_tape st) (py_pos st)
            (py_fuel st)).

(** *** Comparing a draw with a probability

    [torch.rand(1) < p] compares in float32: the Python float [p] is
    first rounded to the nearest float32, ties to the even significand.
    A Python float is given by its exact rational value (infinities
    and NaN are not covered). *)

Inductive Float32 :=
| Finite (v : Q)
| Infinite (negative : bool).

(** The exponent [e] with [2^e <= a/b < 2^(e+1)]. *)
Definition floor_log2 (a b : positive) : Z :=
  let f := Z.log2 (Zpos a) - Z.log2 (Zpos b) in
  if (if 0 <=? f then Zpos b * 2 ^ f <=? Zpos a
      else Zpos b <=? Zpos a * 2 ^ (- f))
  then f else f - 1.

(** [n/d] rounded to the nearest integer, ties to even. *)
Definition round_half_even (n d : Z) : Z :=
  let q := n / d in
  let r := n `mod` d in
  if 2 * r <? d then q
  else if d <? 2 * r then q + 1
  else if Z.even q then q else q + 1.

(** The float32 nearest to [a/b]: 24 bits of significand, the unit in
    the last place [2^(e-23)] with [e] no less than -126 (below it the
    subnormal numbers), infinity from [2^128] on. *)
Definition float32_of_ratio (a b : positive) : Float32 :=
  let e := Z.max (floor_log2 a b) (-126) in
  let u := e - 23 in
  if 0 <=? u then
    let m := round_half_even (Zpos a) (Zpos b * 2 ^ u) in
    if 2 ^ 128 <=? m * 2 ^ u then Infinite false
    else Finite (inject_Z (m * 2 ^ u))
  else
    let m := round_half_even (Zpos a * 2 ^ (- u)) (Zpos b) in
    Finite (m # Z.to_pos (2 ^ (- u))).

Definition float32_neg (x : Float32) : Float32 :=
  match x with
  | Finite v => Finite (- v)
  | Infinite negative => Infinite (negb negative)
  end.

Definition to_float32 (p : Q) : Float32 :=
  let p := Qred p in
  match Qnum p with
  | Z0 => Finite 0
  | Zpos a => float32_of_ratio a (Qden p)
  | Zneg a => float32_neg (float32_of_ratio a (Qden p))
  end.

(** [x < p] for a float32 [x] and a Python float [p]. *)
Definition float_lt (x p : Q) : bool :=
  match to_float32 p with
  | Finite v => negb (Qle_bool v x)
  | Infinite negative => negb negative
  end.

(** *** Python's [random]

    The generator yields 32-bit words.  [getrandbits(k)] takes the
    high [k] bits of one word when [k <= 32], and otherwise as many
    words as [k] bits need, the first word the least significant and
    the last one cut to the bits that remain. *)
Definition word32 (raw : Z) : Z := Z.land raw (2 ^ 32 - 1).

Fixpoint getrandbits_words (words : nat) (k : Z) (tape : nat → Z)
    (pos : nat) : Z :=
  match words with
  | O => 0
  | S words' =>
      let r := word32 (tape pos) in
      let r := if k <? 32 then Z.shiftr r (32 - k) else r in
      r + 2 ^ 32 * getrandbits_words words' (k - 32) tape (S pos)
  end.

Definition getrandbits (k : Z) (tape : nat → Z) (pos : nat) : Z * nat :=
  if k <=? 32
  then (Z.shiftr (word32 (tape pos)) (32 - k), S pos)
  else let words := Z.to_nat ((k - 1) / 32 + 1) in
       (getrandbits_words words k tape pos, (pos + words)%nat).

(** [n.bit_length()] for [n > 0]. *)
Definition bit_length (n : Z) : Z := Z.log2 n + 1.

(** [_randbelow(n)] for [n > 0]: [k = n.bit_length()],
    [r = getrandbits(k)], [while r >= n: r = getrandbits(k)]; the
    loop is followed for [fuel] tries. *)
Fixpoint randbelow_loop (fuel : nat) (n k : Z) (tape : nat → Z) (pos : nat)
  : option Z * nat :=
  match fuel with
  | O => (None, pos)
  | S fuel' =>
      let '(r, pos') := getrandbits k tape pos in
      if n <=? r then randbelow_loop fuel' n k tape pos'
      else (Some r, pos')
  end.

Definition randbelow (fuel : nat) (n : Z) (tape : nat → Z) (pos : nat)
  : option Z * nat :=
  randbelow_loop fuel n (bit_length n) tape pos.

(** [random.sample(l, k=1)[0]]: [ValueError] on an empty population,
    otherwise the element at the index [randbelow(len(l))]. *)
Definition random_sample1 {A} (l : list A) : M A := λ st,
  match l with
  | [] => (Raise (ValueError "Sample larger than population or is negative"),
           st)
  | x :: _ =>
      match randbelow (py_fuel st) (Z.of_nat (length l))
                      (py_tape st) (py_pos st) with
      | (Some j, pos) =>
          (Ok (nth (Z.to_nat j) l x),
           mkRandom (torch_tape st) (torch_pos st) (py_tape st) pos
                    (py_fuel st))
      | (None, pos) =>
          (Raise Unfinished,
           mkRandom (torch_tape st) (torch_pos st) (py_tape st) pos
                    (py_fuel st))
      end
  end.

(** ** The objects the module handles *)

Import Torch.

(** An image after crop and transform: still a PIL image, a tensor
    (its pixels are floats), or any other object a transform returns. *)
Inductive PyImg :=
| ImgPIL (i : PILImage)
| ImgTensor (t : Tensor Q)
| ImgOther (v : PyVal).

(** [crop(img)] returns the image and the top and left offsets;
    [transform(img)] returns the image.  Both may draw random numbers. *)
Definition Crop : Type := PILImage → M (PyImg * Z * Z).
Definition Transform : Type := PyImg → M PyImg.

(** What a tokenizer returns: [input_ids] and [attention_mask], each
    one tensor (a transformers tokenizer) or a list of tensors, one
    per sub-tokenizer (the SDXL tokenizer). *)
Inductive TokField :=
| TFTensor (t : Tensor Z)
| TFList (l : list (Tensor Z)).

Record BatchEncoding := mkEncoding {
  input_ids : TokField;
  attention_mask : TokField
}.

(** A tokenizer object: the attribute [model_max_length], when it has
    one, and its call with the prompt and [max_length]; the other
    arguments of the call are the constants [padding='max_length'],
    [truncation=True], [return_tensors='pt']. *)
Record Tokenizer := mkTokenizer {
  model_max_length : option Z;
  tokenize : PyVal → option Z → Result BatchEncoding
}.

Record Stream := mkStream {
  stream_remote : PyVal;
  stream_local : PyVal
}.

(** The values of a sample. *)
Inductive SampleVal :=
| SImage (i : PyImg)
| STensor (t : Tensor Z)
| STensorList (l : list (Tensor Z))
| SFloat (x : Q).

(** ** Collaborators

    The base class and the libraries, and the two modules of the
    repository that are imported and not part of this file:
    [diffusion.datasets.laion.transforms] (the three crops) and
    [diffusion.models.models] (the SDXL tokenizer).  They are taken as
    parameters. *)
Class Collaborators := {
  StreamingDataset : Type;
  StreamingDataset_init :
    option (list Stream) → PyVal → PyVal → gmap string PyVal →
    Result StreamingDataset;
  StreamingDataset_getitem :
    StreamingDataset → Z → Result (gmap string PyVal);
  Image_open : list Z → Result PILImage;
  Image_convert_data : string → PILImage → list Z;
  AutoTokenizer_from_pretrained : string → string → Result Tokenizer;
  SDXLTokenizer : string → Result Tokenizer;
  LargestCenterSquare : Z → Crop;
  RandomCropSquare : Z → Crop;
  RandomCropAspectRatioTransorm : Crop;
  ToTensor : Transform;
  Normalize : Q * Q * Q → Q * Q * Q → Transform;
  DataLoader_init : Z → gmap string PyVal → Result unit
}.

(** The keyword arguments of [StreamingImageCaptionDataset.__init__]. *)
Module Init.
Record Args := mkArgs {
  streams : option (list Stream);
  remote : PyVal;
  local : PyVal;
  tokenizer_name_or_path : string;
  caption_drop_prob : Q;
  microcond_drop_prob : Q;
  caption_selection : string;
  crop : option Crop;
  transform : option Transform;
  image_key : string;
  caption_key : string;
  sdxl : bool;
  zero_dropped_captions : bool;
  streaming_kwargs : gmap string PyVal
}.
End Init.

(** The arguments of [build_streaming_image_caption_dataloader]. *)
Module Build.
Record Args := mkArgs {
  remote : PyVal;
  local : PyVal;
  batch_size : Z;
  tokenizer_name_or_path : string;
  caption_drop_prob : Q;
  microcond_drop_prob : Q;
  resize_size : Z;
  caption_selection : string;
  transform : option (list Transform);
  image_key : string;
  caption_key : string;
  crop_type : option string;
  zero_dropped_captions : bool;
  streaming_kwargs : option (gmap string PyVal);
  dataloader_kwargs : option (gmap string PyVal)
}.
End Build.

(** ** [StreamingImageCaptionDataset] *)

Section Dataset.
Context `{Collaborators}.

(** The attributes [__init__] sets on [self]; [base] is the state of
    the [StreamingDataset] base class. *)
Record StreamingImageCaptionDataset := mkDataset {
  base : StreamingDataset;
  crop : option Crop;
  transform : option Transform;
  sdxl : bool;
  caption_drop_prob : Q;
  microcond_drop_prob : Q;
  caption_selection : string;
  image_key : string;
  caption_key : string;
  zero_dropped_captions : bool;
  tokenizer : Tokenizer
}.

Definition invalid_caption_selection (caption_selection : string) : PyExc :=
  ValueError ("Invalid caption selection: " +:+ caption_selection
              +:+ ". Must be one of [random, first]").

(** [# Set defaults for vision-friendly streaming args.] *)
Definition vision_defaults (streaming_kwargs : gmap string PyVal)
  : gmap string PyVal :=
  let streaming_kwargs :=
    setdefault "shuffle_block_size" (PyInt (Z.shiftl 1 18)) streaming_kwargs in
  setdefault "shuffle_algo" (PyStr "py1s") streaming_kwargs.

(** The tokenizer [__init__] loads: [SDXLTokenizer(name)] when [sdxl],
    else [AutoTokenizer.from_pretrained(name, subfolder='tokenizer')]. *)
Definition load_tokenizer (sdxl : bool) (tokenizer_name_or_path : string)
  : Result Tokenizer :=
  if sdxl then SDXLTokenizer tokenizer_name_or_path
  else AutoTokenizer_from_pretrained tokenizer_name_or_path "tokenizer".

Definition __init__ (a : Init.Args) : Result StreamingImageCaptionDataset :=
  let streaming_kwargs := vision_defaults (Init.streaming_kwargs a) in
  base ← StreamingDataset_init (Init.streams a) (Init.remote a)
           (Init.local a) streaming_kwargs;
  let caption_selection := lower (Init.caption_selection a) in
  if negb (str_in caption_selection ["first"; "random"])
  then Raise (invalid_caption_selection caption_selection)
  else
    tokenizer ← load_tokenizer (Init.sdxl a) (Init.tokenizer_name_or_path a);
    Ok {| base := base;
          crop := Init.crop a;
          transform := Init.transform a;
          sdxl := Init.sdxl a;
          caption_drop_prob := Init.caption_drop_prob a;
          microcond_drop_prob := Init.microcond_drop_prob a;
          caption_selection := caption_selection;
          image_key := Init.image_key a;
          caption_key := Init.caption_key a;
          zero_dropped_captions := Init.zero_dropped_captions a;
          tokenizer := tokenizer |}.

(** [Image.open(BytesIO(v))] *)
Definition open_bytes (v : PyVal) : Result PILImage :=
  match v with
  | PyBytes b => Image_open b
  | PyNone => Image_open []
  | _ => Raise (TypeError "a bytes-like object is required")
  end.

(** [img.convert(mode)] keeps the size. *)
Definition convert (img : PILImage) (mode : string) : PILImage :=
  {| im_mode := mode;
     im_size := im_size img;
     im_data := Image_convert_data mode img |}.

(** [out[k] = out[k] * c] *)
Definition scale_item (k : string) (c : Z) (out : gmap string SampleVal)
  : Result (gmap string SampleVal) :=
  v ← subscript out k;
  match v with
  | STensor t => Ok (<[k := STensor (mul_scalar t c)]> out)
  | _ => Raise (TypeError "unsupported operand type(s) for *")
  end.

(** [caption[0]] *)
Definition first_item (caption : PyVal) : Result PyVal :=
  match caption with
  | PyList l => list_index l 0
  | PyStr s => list_index (chars s) 0
  | PyBytes b => list_index (PyInt <$> b) 0
  | _ => Raise (TypeError "object is not subscriptable")
  end.

(** [random.sample(caption, k=1)[0]] *)
Definition random_item (caption : PyVal) : M PyVal :=
  match caption with
  | PyList l => random_sample1 l
  | PyStr s => random_sample1 (chars s)
  | PyBytes b => random_sample1 (PyInt <$> b)
  | _ => lift (Raise (TypeError "Population must be a sequence"))
  end.

(** [for x in field] and [field[i]] on a field of the tokenizer's
    output. *)
Definition field_iter (f : TokField) : Result (list (Tensor Z)) :=
  match f with
  | TFList l => Ok l
  | TFTensor t => unbind t
  end.

Definition field_index (f : TokField) (i : nat) : Result (Tensor Z) :=
  match f with
  | TFList l => list_index l i
  | TFTensor t => select0 t i
  end.

Definition field_value (f : TokField) : SampleVal :=
  match f with
  | TFTensor t => STensor t
  | TFList l => STensorList l
  end.

Definition unsupported_image : PyExc :=
  ValueError
    "Image after transformations must either be a PIL Image or Torch Tensor".

(** [__getitem__] is written block by block, one definition for each
    commented block of the source, and then assembled. *)

(** [# Image]: the image field, opened if it is not yet an image and
    converted to RGB. *)
Definition load_image (self : StreamingImageCaptionDataset)
    (sample : gmap string PyVal) : Result PILImage :=
  img ← subscript sample (image_key self);
  img ← match img with
        | PyImage i => Ok i
        | _ => v ← subscript sample (image_key self); open_bytes v
        end;
  Ok (if bool_decide (im_mode img ≠ "RGB") then convert img "RGB" else img).

(** [# Image transforms] *)
Definition image_transforms (self : StreamingImageCaptionDataset)
    (img : PILImage) : M (PyImg * Z * Z) :=
  '(img, crop_top, crop_left) ←
    match crop self with
    | Some crop => crop img
    | None => mret (ImgPIL img, 0, 0)
    end;
  img ← match transform self with
        | Some transform => transform img
        | None => mret img
        end;
  mret (img, crop_top, crop_left).

(** [# Get the new height and width]: [(img_w, img_h)]. *)
Definition image_size (img : PyImg) : Result (Z * Z) :=
  match img with
  | ImgTensor t =>
      img_h ← shape_from_end t 2;
      img_w ← shape_from_end t 1;
      Ok (img_w, img_h)
  | ImgPIL i => Ok (im_size i)
  | ImgOther _ => Raise unsupported_image
  end.

(** [# SDXL microconditioning on image characteristics], the body of
    [if self.sdxl]. *)
Definition microconditioning (self : StreamingImageCaptionDataset)
    (orig_w orig_h : Z) (img : PyImg) (crop_top crop_left : Z)
    (out : gmap string SampleVal) : M (gmap string SampleVal) :=
  '(img_w, img_h) ← lift (image_size img);
  let out := <["cond_crops_coords_top_left" :=
                 STensor (tensor [crop_top; crop_left])]> out in
  let out := <["cond_original_size" :=
                 STensor (tensor [orig_w; orig_h])]> out in
  let out := <["cond_target_size" :=
                 STensor (tensor [img_w; img_h])]> out in
  (* Microconditioning dropout as in Stability repo *)
  u ← torch_rand;
  out ← (if float_lt u (microcond_drop_prob self)
         then lift (scale_item "cond_crops_coords_top_left" 0 out)
         else mret out);
  u ← torch_rand;
  out ← (if float_lt u (microcond_drop_prob self)
         then lift (scale_item "cond_original_size" 0 out)
         else mret out);
  u ← torch_rand;
  out ← (if float_lt u (microcond_drop_prob self)
         then lift (scale_item "cond_target_size" 0 out)
         else mret out);
  mret out.

(** [# Caption]: the caption to tokenize, and [out] with
    [drop_caption_mask] set. *)
Definition select_caption (self : StreamingImageCaptionDataset)
    (sample : gmap string PyVal) (out : gmap string SampleVal)
  : M (PyVal * gmap string SampleVal) :=
  u ← torch_rand;
  if float_lt u (caption_drop_prob self) then
    let caption := PyStr "" in
    if zero_dropped_captions self
    then mret (caption, <["drop_caption_mask" := SFloat 0]> out)
    else mret (caption, <["drop_caption_mask" := SFloat 1]> out)
  else
    caption ← lift (subscript sample (caption_key self));
    caption ←
      (if isinstance_List caption
          && String.eqb (caption_selection self) "first"
       then lift (first_item caption) else mret caption);
    caption ←
      (if isinstance_List caption
          && String.eqb (caption_selection self) "random"
       then random_item caption else mret caption);
    mret (caption, <["drop_caption_mask" := SFloat 1]> out).

(** The call of the tokenizer and what is made of its output:
    [(tokenized_caption, attention_mask)]. *)
Definition tokenize_caption (self : StreamingImageCaptionDataset)
    (caption : PyVal) : Result (SampleVal * SampleVal) :=
  max_length ←
    (if sdxl self then Ok None
     else match model_max_length (tokenizer self) with
          | Some n => Ok (Some n)
          | None => Raise (AttributeError "model_max_length")
          end);
  tokenizer_out ← tokenize (tokenizer self) caption max_length;
  if sdxl self then
    ids ← field_iter (input_ids tokenizer_out);
    tokenized_caption ← stack (squeeze <$> ids);
    (* Take union over both tokenizers padding masks *)
    let attention_masks := attention_mask tokenizer_out in
    m0 ← field_index attention_masks 0;
    m1 ← field_index attention_masks 1;
    either ← logical_or m0 m1;
    m0' ← field_index attention_masks 0;
    Ok (STensor tokenized_caption, STensor (bool_to either (dtype m0')))
  else
    match input_ids tokenizer_out with
    | TFTensor t =>
        Ok (STensor (squeeze t), field_value (attention_mask tokenizer_out))
    | TFList _ => Raise (AttributeError "squeeze")
    end.

Definition __getitem__ (self : StreamingImageCaptionDataset) (index : Z)
  : M (gmap string SampleVal) :=
  sample ← lift (StreamingDataset_getitem (base self) index);
  let out : gmap string SampleVal := ∅ in
  img ← lift (load_image self sample);
  let '(orig_w, orig_h) := im_size img in
  '(img, crop_top, crop_left) ← image_transforms self img;
  let out := <["image" := SImage img]> out in
  out ← (if sdxl self
         then microconditioning self orig_w orig_h img crop_top crop_left out
         else mret out);
  '(caption, out) ← select_caption self sample out;
  '(tokenized_caption, attention_mask) ←
    lift (tokenize_caption self caption);
  let out := <["captions" := tokenized_caption]> out in
  let out := <["attention_mask" := attention_mask]> out in
  mret out.

(** ** [build_streaming_image_caption_dataloader] *)

(** [transforms.Compose(ts)] applies the transforms in order. *)
Definition Compose (ts : list Transform) : Transform :=
  λ img, foldl (λ acc t, x ← acc; t x) (mret img) ts.

(** The [DataLoader] the builder returns. *)
Record DataLoader := mkDataLoader {
  dataset : StreamingImageCaptionDataset;
  dl_batch_size : Z;
  dl_sampler : PyVal;
  dl_kwargs : gmap string PyVal
}.

(** A call [f(k1=v1, ..., **kwargs)] raises [TypeError] when [kwargs]
    repeats one of the keywords written out. *)
Definition check_keywords (explicit : list string)
    (kwargs : gmap string PyVal) : Result unit :=
  match filter (λ k, is_Some (kwargs !! k)) explicit with
  | [] => Ok tt
  | k :: _ =>
      Raise (TypeError ("got multiple values for keyword argument '"
                        +:+ k +:+ "'"))
  end.

Definition dataset_keywords : list string :=
  ["streams"; "tokenizer_name_or_path"; "caption_drop_prob";
   "microcond_drop_prob"; "caption_selection"; "crop"; "transform";
   "image_key"; "caption_key"; "batch_size"; "sdxl";
   "zero_dropped_captions"].

Definition dataloader_keywords : list string :=
  ["dataset"; "batch_size"; "sampler"].

Definition dquote : string := String (ascii_of_N 34) EmptyString.

Definition invalid_crop_type (crop_type : string) : PyExc :=
  ValueError ("Invalid crop_type: " +:+ crop_type +:+ ". Must be ["
              +:+ dquote +:+ "square" +:+ dquote +:+ ", "
              +:+ dquote +:+ "random" +:+ dquote +:+ ", "
              +:+ dquote +:+ "aspect_ratio" +:+ dquote +:+ ", None]").

Definition length_mismatch (n1 n2 : Z) : PyExc :=
  ValueError ("remote and local Sequences must be the same length, "
              +:+ "got lengths " +:+ pretty n1 +:+ " and " +:+ pretty n2).

Definition type_mismatch (remote local : PyVal) : PyExc :=
  ValueError ("remote and local must be both Strings or Sequences, "
              +:+ "got types " +:+ type_name remote +:+ " and "
              +:+ type_name local +:+ ".").

Definition sdxl_tokenizer_name : string :=
  "stabilityai/stable-diffusion-xl-base-1.0".

Definition build_streaming_image_caption_dataloader (a : Build.Args)
  : Result DataLoader :=
  (* Check crop type *)
  crop_type ←
    match Build.crop_type a with
    | Some crop_type =>
        let crop_type := lower crop_type in
        if negb (str_in crop_type ["square"; "random"; "aspect_ratio"])
        then Raise (invalid_crop_type crop_type)
        else Ok (Some crop_type)
    | None => Ok None
    end;
  (* Handle None kwargs *)
  let streaming_kwargs := default ∅ (Build.streaming_kwargs a) in
  let dataloader_kwargs := default ∅ (Build.dataloader_kwargs a) in
  (* Check types for remote and local *)
  '(remote, local) ←
    (if isinstance_str (Build.remote a) && isinstance_str (Build.local a)
     then Ok (PyList [Build.remote a], PyList [Build.local a])
     else if isinstance_Sequence (Build.remote a)
             && isinstance_Sequence (Build.local a)
     then
       n1 ← len (Build.remote a);
       n2 ← len (Build.local a);
       if negb (n1 =? n2)
       then not_raised (length_mismatch n1 n2)
                       (Ok (Build.remote a, Build.local a))
       else Ok (Build.remote a, Build.local a)
     else not_raised (type_mismatch (Build.remote a) (Build.local a))
                     (Ok (Build.remote a, Build.local a)));
  (* Create a Stream for each (remote, local) pair *)
  rs ← iter remote;
  ls ← iter local;
  let streams := (λ rl, mkStream rl.1 rl.2) <$> Py.zip rs ls in
  (* Infer SDXL from tokenizer path; [log.info] leaves no trace in
     the result *)
  let sdxl := String.eqb (Build.tokenizer_name_or_path a)
                         sdxl_tokenizer_name in
  (* Set the crop to apply *)
  let crop :=
    match crop_type with
    | Some crop_type =>
        if String.eqb crop_type "square"
        then Some (LargestCenterSquare (Build.resize_size a))
        else if String.eqb crop_type "random"
        then Some (RandomCropSquare (Build.resize_size a))
        else if String.eqb crop_type "aspect_ratio"
        then Some RandomCropAspectRatioTransorm
        else None
    | None => None
    end in
  let transform :=
    match Build.transform a with
    | None => [ToTensor; Normalize (1#2, 1#2, 1#2)%Q (1#2, 1#2, 1#2)%Q]
    | Some transform => transform
    end in
  let transform := Compose transform in
  (* [assert isinstance(transform, Callable)] holds for a [Compose] *)
  _ ← check_keywords dataset_keywords streaming_kwargs;
  dataset ← __init__
    {| Init.streams := Some streams;
       Init.remote := default PyNone (streaming_kwargs !! "remote");
       Init.local := default PyNone (streaming_kwargs !! "local");
       Init.tokenizer_name_or_path := Build.tokenizer_name_or_path a;
       Init.caption_drop_prob := Build.caption_drop_prob a;
       Init.microcond_drop_prob := Build.microcond_drop_prob a;
       Init.caption_selection := Build.caption_selection a;
       Init.crop := crop;
       Init.transform := Some transform;
       Init.image_key := Build.image_key a;
       Init.caption_key := Build.caption_key a;
       Init.sdxl := sdxl;
       Init.zero_dropped_captions := Build.zero_dropped_captions a;
       Init.streaming_kwargs :=
         <["batch_size" := PyInt (Build.batch_size a)]>
           (delete "remote" (delete "local" streaming_kwargs)) |};
  _ ← check_keywords dataloader_keywords dataloader_kwargs;
  _ ← DataLoader_init (Build.batch_size a) dataloader_kwargs;
  Ok {| dataset := dataset;
        dl_batch_size := Build.batch_size a;
        dl_sampler := PyNone;
        dl_kwargs := dataloader_kwargs |}.

End Dataset.

(** ** Reading a run

    Notions the statements below use to speak about the draws of a
    call. *)

(** The draw [torch.rand(1)] returns [k] calls after [st]. *)
Definition draw_after (st : RandomState) (k : nat) : Q :=
  rand_value (torch_tape st (torch_pos st + k)%nat).

(** The state after [n] calls of [torch.rand]. *)
Definition after_draws (n : nat) (st : RandomState) : RandomState :=
  mkRandom (torch_tape st) (n + torch_pos st) (py_tape st) (py_pos st)
           (py_fuel st).

(** A vector after its dropout: zero when its draw fell below the
    probability. *)
Definition after_drop (dropped : bool) (a b : Z) : Tensor Z :=
  if dropped then tensor [0; 0] else tensor [a; b].

(** The 24 bits of the draw [k] calls after [st]: the draw is their
    value divided by [2^24]. *)
Definition draw_bits (st : RandomState) (k : nat) : Z :=
  Z.land (torch_tape st (torch_pos st + k)%nat) (2 ^ 24 - 1).

(** How many of the [2^24] values of a draw are below the probability
    [p]: the draws [0/2^24], ..., [(drop_threshold p - 1)/2^24]. *)
Definition drop_threshold (p : Q) : Z :=
  match to_float32 p with
  | Finite v => Z.max 0 (Z.min (2 ^ 24) (Qceiling (v * 16777216)))
  | Infinite negative => if negative then 0 else 2 ^ 24
  end.

(** The number of words of Python's generator that one call of
    [getrandbits(k)] takes. *)
Definition words_of (k : Z) : nat :=
  if k <=? 32 then 1%nat else Z.to_nat ((k - 1) / 32 + 1).

(** The value of call [i] (from 0) of [getrandbits] among those that
    [_randbelow(n)] makes from the state [st]. *)
Definition attempt (n : Z) (st : RandomState) (i : nat) : Z :=
  (getrandbits (bit_length n) (py_tape st)
     (py_pos st + i * words_of (bit_length n))%nat).1.

(** Builder arguments with other locations. *)
Definition with_locations (a : Build.Args) (remote local : PyVal)
  : Build.Args := {|
  Build.remote := remote;
  Build.local := local;
  Build.batch_size := Build.batch_size a;
  Build.tokenizer_name_or_path := Build.tokenizer_name_or_path a;
  Build.caption_drop_prob := Build.caption_drop_prob a;
  Build.microcond_drop_prob := Build.microcond_drop_prob a;
  Build.resize_size := Build.resize_size a;
  Build.caption_selection := Build.caption_selection a;
  Build.transform := Build.transform a;
  Build.image_key := Build.image_key a;
  Build.caption_key := Build.caption_key a;
  Build.crop_type := Build.crop_type a;
  Build.zero_dropped_captions := Build.zero_dropped_captions a;
  Build.streaming_kwargs := Build.streaming_kwargs a;
  Build.dataloader_kwargs := Build.dataloader_kwargs a
|}.

(** [crop_type] passes the check of the builder. *)
Definition valid_crop_type (crop_type : option string) : bool :=
  match crop_type with
  | None => true
  | Some crop_type =>
      str_in (lower crop_type) ["square"; "random"; "aspect_ratio"]
  end.

(** The locations the builder pairs up: two strings stand for two
    lists of one element. *)
Definition paired_locations (remote local : PyVal) : PyVal * PyVal :=
  if isinstance_str remote && isinstance_str local
  then (PyList [remote], PyList [local])
  else (remote, local).

(** The state of the generators when the caption block starts, given
    their state after the crop and the transform: in SDXL mode the
    microconditioning block has taken three draws. *)
Definition before_caption `{Collaborators}
    (self : StreamingImageCaptionDataset) (st1 : RandomState) : RandomState :=
  if sdxl self then after_draws 3 st1 else st1.

(** The keys of a sample. *)
Definition sample_keys (sdxl : bool) : gset string :=
  (if sdxl
   then {["cond_crops_coords_top_left"; "cond_original_size";
          "cond_target_size"]}
   else ∅)
  ∪ {["image"; "captions"; "attention_mask"; "drop_caption_mask"]}.

(** ** A small world to run the code in

    Concrete collaborators: a shard source holding a fixed list of
    records, a decoder for images written as [width; height; pixels],
    character-code tokenizers, and crops and transforms that only
    change sizes. *)

Module Demo.

Definition decode (b : list Z) : Result PILImage :=
  match b with
  | w :: h :: pixels => Ok (mkImage "RGB" (w, h) pixels)
  | _ => Raise (CollaboratorError "UnidentifiedImageError")
  end.

Fixpoint codes (s : string) : list Z :=
  match s with
  | EmptyString => []
  | String c r => Z.of_N (N_of_ascii c) :: codes r
  end.

(** Ids are character codes, padded with [pad] or truncated to [n]
    tokens; the mask is 1 on the tokens kept, and on the first
    [always] positions. *)
Definition encode (pad : Z) (always : nat) (n : nat) (s : string)
  : Tensor Z * Tensor Z :=
  let ids := take n (codes s) in
  let k := length ids in
  (mkTensor dt_int64 [1%nat; n] (ids ++ replicate (n - k) pad),
   mkTensor dt_int64 [1%nat; n]
     ((λ i, if (i <? Nat.max k always)%nat then 1 else 0) <$> seq 0 n)).

Definition auto_tokenizer : Tokenizer :=
  mkTokenizer (Some 6) (λ prompt max_length,
    match prompt, max_length with
    | PyStr s, Some n =>
        let e := encode 0 0 (Z.to_nat n) s in
        Ok (mkEncoding (TFTensor e.1) (TFTensor e.2))
    | _, _ => Raise (CollaboratorError "tokenizer")
    end).

Definition sdxl_tokenizer : Tokenizer :=
  mkTokenizer None (λ prompt max_length,
    match prompt with
    | PyStr s =>
        let n := Z.to_nat (default 6 max_length) in
        let e1 := encode 0 0 n s in
        let e2 := encode 9 1 n s in
        Ok (mkEncoding (TFList [e1.1; e2.1]) (TFList [e1.2; e2.2]))
    | _ => Raise (CollaboratorError "tokenizer")
    end).

Definition center_square (r : Z) : Crop := λ img,
  let '(w, h) := im_size img in
  let m := Z.min w h in
  mret (ImgPIL (mkImage (im_mode img) (r, r) (im_data img)),
        (h - m) / 2, (w - m) / 2).

Definition to_tensor : Transform := λ img,
  match img with
  | ImgPIL i =>
      mret (ImgTensor (mkTensor dt_float32
              [3%nat; Z.to_nat (im_size i).2; Z.to_nat (im_size i).1]
              (inject_Z <$> im_data i)))
  | other => mret other
  end.

Definition world (records : list (gmap string PyVal)) : Collaborators := {|
  StreamingDataset := list Stream;
  StreamingDataset_init := λ streams _ _ _, Ok (default [] streams);
  StreamingDataset_getitem := λ _ index,
    if index <? 0 then Raise IndexError
    else list_index records (Z.to_nat index);
  Image_open := decode;
  Image_convert_data := λ _ img, im_data img;
  AutoTokenizer_from_pretrained := λ _ _, Ok auto_tokenizer;
  SDXLTokenizer := λ _, Ok sdxl_tokenizer;
  LargestCenterSquare := center_square;
  RandomCropSquare := center_square;
  RandomCropAspectRatioTransorm := center_square 4;
  ToTensor := to_tensor;
  Normalize := λ _ _ img, mret img;
  DataLoader_init := λ batch_size _,
    if batch_size <=? 0
    then Raise (ValueError "batch_size should be a positive integer value")
    else Ok tt
|}.

(** One record: a 4x2 image given as bytes and two candidate
    captions. *)
Definition record : gmap string PyVal :=
  <["image" := PyBytes [4; 2; 10; 20; 30; 40; 50; 60; 70; 80]]>
  (<["caption" := PyList [PyStr "a dog"; PyStr "a puppy"]]> ∅).

(** Generators: the [torch] tape is constant or given by its first
    words, the Python tape is constant, and the loop of [_randbelow]
    is followed for 8 tries. *)
Definition constant (raw : Z) : RandomState :=
  mkRandom (λ _, raw) 0 (λ _, raw) 0 8.

Definition tape (words : list Z) : RandomState :=
  mkRandom (λ i, nth i words 0) 0 (λ _, 1) 0 8.

(** Both tapes given by their first words. *)
Definition tapes (torch_words py_words : list Z) : RandomState :=
  mkRandom (λ i, nth i torch_words 0) 0 (λ i, nth i py_words 0) 0 8.


Definition seven_tenths : Q := 3152519739159347 # 4503599627370496.

(** Builder arguments with the defaults of the signature. *)
Definition build_args (remote local : PyVal) : Build.Args := {|
  Build.remote := remote;
  Build.local := local;
  Build.batch_size := 8;
  Build.tokenizer_name_or_path := "stabilityai/stable-diffusion-2-base";
  Build.caption_drop_prob := 0;
  Build.microcond_drop_prob := 0;
  Build.resize_size := 256;
  Build.caption_selection := "first";
  Build.transform := None;
  Build.image_key := "image";
  Build.caption_key := "caption";
  Build.crop_type := Some "square";
  Build.zero_dropped_captions := true;
  Build.streaming_kwargs := None;
  Build.dataloader_kwargs := None
|}.

(** Constructor arguments with the defaults of the signature, for a
    remote and a local location and a given selection policy. *)
Definition init_args (caption_selection : string) : Init.Args := {|
  Init.streams := None;
  Init.remote := PyStr "s3://bucket/laion";
  Init.local := PyStr "/tmp/laion";
  Init.tokenizer_name_or_path := "stabilityai/stable-diffusion-2-base";
  Init.caption_drop_prob := 0;
  Init.microcond_drop_prob := 0;
  Init.caption_selection := caption_selection;
  Init.crop := None;
  Init.transform := None;
  Init.image_key := "image";
  Init.caption_key := "caption";
  Init.sdxl := false;
  Init.zero_dropped_captions := false;
  Init.streaming_kwargs := ∅
|}.

(** A dataset over [record], as [__init__] leaves it. *)
Definition a_dataset (sdxl : bool) (caption_drop_prob microcond_drop_prob : Q)
    (caption_selection : string) (zero_dropped_captions : bool)
  : @StreamingImageCaptionDataset (world [record]) :=
  @mkDataset (world [record]) [] None None sdxl caption_drop_prob
    microcond_drop_prob caption_selection "image" "caption"
    zero_dropped_captions (if sdxl then sdxl_tokenizer else auto_tokenizer).

(** What is seen of a run: whether it produced a sample, and a field
    of the sample. *)
Definition produced {A} (run : Result A * RandomState) : bool := is_ok run.1.

Definition field (k : string)
    (run : Result (gmap string SampleVal) * RandomState) : option SampleVal :=
  match run.1 with
  | Ok out => out !! k
  | Raise _ => None
  end.

(** The world of the runs below: a shard source with [record]. *)
Abbreviation W := (world [record]).

(** The streams a built loader reads. *)
Definition built_streams (r : Result (@DataLoader W))
  : Result (list Stream) :=
  dl ← r; Ok (base (dataset dl)).

End Demo.

(** ** More of the small world *)

Module DemoMore.
Import Demo.

(** Records that lack a field, or whose candidate captions are none. *)
Definition record_without_image : gmap string PyVal :=
  <["caption" := PyStr "a dog"]> ∅.

Definition record_without_caption : gmap string PyVal :=
  <["image" := PyBytes [4; 2; 10; 20; 30; 40; 50; 60; 70; 80]]> ∅.

Definition record_without_candidates : gmap string PyVal :=
  <["image" := PyBytes [4; 2; 10; 20; 30; 40; 50; 60; 70; 80]]>
  (<["caption" := PyList []]> ∅).

(** A record whose image is a decoded image in mode L. *)
Definition grey_image : PILImage := mkImage "L" (4, 2) [1; 2; 3; 4; 5; 6; 7; 8].

Definition record_with_grey_image : gmap string PyVal :=
  <["image" := PyImage grey_image]> (<["caption" := PyStr "a dog"]> ∅).

(** A transform whose result is neither an image nor a tensor. *)
Definition to_none : Transform := λ _, mret (ImgOther PyNone).

(** A dataset over one record, as [__init__] leaves it. *)
Definition dataset_over (r : gmap string PyVal) (sdxl : bool)
    (caption_drop_prob : Q) (caption_selection : string)
    (transform : option Transform)
  : @StreamingImageCaptionDataset (world [r]) :=
  @mkDataset (world [r]) [] None transform sdxl caption_drop_prob 0
    caption_selection "image" "caption" true
    (if sdxl then sdxl_tokenizer else auto_tokenizer).

(** Builder arguments: the defaults of the signature but for the
    tokenizer, the crop type and the keyword arguments of the dataset. *)
Definition configured (remote local : PyVal) (tokenizer : string)
    (crop_type : option string)
    (streaming_kwargs : option (gmap string PyVal)) : Build.Args := {|
  Build.remote := remote;
  Build.local := local;
  Build.batch_size := 8;
  Build.tokenizer_name_or_path := tokenizer;
  Build.caption_drop_prob := 0;
  Build.microcond_drop_prob := 0;
  Build.resize_size := 256;
  Build.caption_selection := "first";
  Build.transform := None;
  Build.image_key := "image";
  Build.caption_key := "caption";
  Build.crop_type := crop_type;
  Build.zero_dropped_captions := true;
  Build.streaming_kwargs := streaming_kwargs;
  Build.dataloader_kwargs := None
|}.

(** Whether a sample comes out of the dataset of a built loader. *)
Definition built_produces (r : Result (@DataLoader W)) (index : Z)
    (st : RandomState) : bool :=
  match r with
  | Ok dl => produced (__getitem__ (dataset dl) index st)
  | Raise _ => false
  end.

End DemoMore.

(** * Properties *)

(** ** The monads *)

Lemma result_bind_ok {A B} (r : Result A) (f : A → Result B) (b : B) :
  r ≫= f = Ok b → ∃ a, r = Ok a ∧ f a = Ok b.
Proof. destruct r as [a|e]; simpl; [eauto | discriminate]. Qed.

Lemma result_bind_run {A B} (r : Result A) (f : A → Result B) (a : A) :
  r = Ok a → r ≫= f = f a.
Proof. by intros ->. Qed.

Lemma bind_ok {A B} (m : M A) (f : A → M B) st b st' :
  (m ≫= f) st = (Ok b, st') →
  ∃ a st1, m st = (Ok a, st1) ∧ f a st1 = (Ok b, st').
Proof.
  unfold mbind, M_bind. destruct (m st) as [[a|e] st1]; [eauto | discriminate].
Qed.

Lemma lift_ok {A} (r : Result A) st a st' :
  lift r st = (Ok a, st') → r = Ok a ∧ st' = st.
Proof. unfold lift. intros [= -> ->]. done. Qed.

Lemma mret_ok {A} (x : A) st a st' :
  (mret x : M A) st = (Ok a, st') → a = x ∧ st' = st.
Proof. unfold mret, M_ret. intros [= -> ->]. done. Qed.

(** ** The random draws *)

Lemma rand_value_range raw : (0 <= rand_value raw)%Q ∧ (rand_value raw < 1)%Q.
Proof.
  unfold rand_value.
  change (2 ^ 24 - 1) with (Z.ones 24).
  rewrite Z.land_ones by lia.
  assert (Hb : 0 <= raw `mod` 2 ^ 24 < 2 ^ 24) by (apply Z.mod_pos_bound; lia).
  change (2 ^ 24) with 16777216 in *.
  unfold Qle, Qlt; simpl. lia.
Qed.

Lemma torch_rand_run st :
  torch_rand st =
  (Ok (rand_value (torch_tape st (torch_pos st))),
   mkRandom (torch_tape st) (S (torch_pos st)) (py_tape st) (py_pos st)
            (py_fuel st)).
Proof. reflexivity. Qed.

Lemma round_half_even_nonneg n d : 0 <= n → 0 < d → 0 <= round_half_even n d.
Proof.
  intros Hn Hd. unfold round_half_even.
  assert (0 <= n / d) by (apply Z.div_pos; lia).
  repeat case_match; lia.
Qed.

Lemma float32_of_ratio_nonneg a b v :
  float32_of_ratio a b = Finite v → (0 <= v)%Q.
Proof.
  unfold float32_of_ratio.
  set (u := Z.max (floor_log2 a b) (-126) - 23).
  destruct (0 <=? u) eqn:Hu.
  - apply Z.leb_le in Hu.
    assert (0 < 2 ^ u) by (apply Z.pow_pos_nonneg; lia).
    pose proof (round_half_even_nonneg (Z.pos a) (Z.pos b * 2 ^ u)
                  ltac:(lia) ltac:(lia)) as Hm.
    case_match; [discriminate|]. intros [= <-].
    unfold Qle; simpl. nia.
  - apply Z.leb_gt in Hu.
    assert (0 < 2 ^ (- u)) by (apply Z.pow_pos_nonneg; lia).
    pose proof (round_half_even_nonneg (Z.pos a * 2 ^ (- u)) (Z.pos b)
                  ltac:(lia) ltac:(lia)) as Hm.
    intros [= <-]. unfold Qle; simpl. lia.
Qed.

Lemma float32_of_ratio_not_negative a b :
  float32_of_ratio a b ≠ Infinite true.
Proof. unfold float32_of_ratio. by repeat case_match. Qed.

(** The number of values of a draw that are below a probability: a
    draw is below [p] exactly when its 24 bits are below
    [drop_threshold p]. *)
Lemma float_lt_threshold raw p :
  float_lt (rand_value raw) p = (Z.land raw (2 ^ 24 - 1) <? drop_threshold p).
Proof.
  unfold float_lt, drop_threshold, rand_value.
  change (2 ^ 24 - 1) with (Z.ones 24).
  rewrite Z.land_ones by lia.
  assert (Hw : 0 <= raw `mod` 2 ^ 24 < 2 ^ 24) by (apply Z.mod_pos_bound; lia).
  set (w := raw `mod` 2 ^ 24) in *.
  destruct (to_float32 p) as [v|[]].
  - set (c := Qceiling (v * 16777216)).
    assert (Hc : (w # 16777216 < v)%Q ↔ w < c).
    { assert (Hx : (w # 16777216 < v)%Q ↔ (inject_Z w < v * 16777216)%Q).
      { destruct v as [a b]. unfold Qlt; simpl. lia. }
      rewrite Hx. split; intros Hlt.
      - rewrite Zlt_Qlt. eapply Qlt_le_trans; [exact Hlt | apply Qle_ceiling].
      - eapply Qle_lt_trans; [|apply (Qceiling_lt (v * 16777216))].
        rewrite <- Zle_Qle. fold c. lia. }
    destruct (Qle_bool v (w # 16777216)) eqn:Hle; simpl; symmetry.
    + apply Qle_bool_iff in Hle. apply Z.ltb_ge.
      destruct (Z.lt_ge_cases w c) as [Hlt|Hge]; [|lia].
      apply Hc in Hlt. by apply Qlt_not_le in Hlt.
    + apply Z.ltb_lt.
      assert (w < c); [|lia]. apply Hc. apply Qnot_le_lt.
      intros Hle'. apply Qle_bool_iff in Hle'. congruence.
  - simpl. symmetry. apply Z.ltb_ge. lia.
  - simpl. symmetry. apply Z.ltb_lt. lia.
Qed.


Lemma draw_below_threshold st k p :
  float_lt (draw_after st k) p = (draw_bits st k <? drop_threshold p).
Proof. apply float_lt_threshold. Qed.

Lemma to_float32_zero p : (p == 0)%Q → to_float32 p = Finite 0.
Proof. intros Hp. unfold to_float32. by rewrite (Qred_complete p 0 Hp). Qed.

Lemma to_float32_one p :
  (p == 1)%Q → to_float32 p = Finite (8388608 # 8388608).
Proof. intros Hp. unfold to_float32. by rewrite (Qred_complete p 1 Hp). Qed.



Lemma round_half_even_error n d :
  0 < d → 2 * Z.abs (round_half_even n d * d - n) <= d.
Proof.
  intros Hd. unfold round_half_even.
  pose proof (Z.div_mod n d ltac:(lia)) as Hdiv.
  pose proof (Z.mod_pos_bound n d Hd) as Hmod.
  set (q := n / d) in *. set (r := n `mod` d) in *.
  repeat case_match; lia.
Qed.

Lemma floor_log2_le a b : (a <= b)%positive → floor_log2 a b <= 0.
Proof.
  intros Hab. unfold floor_log2.
  assert (Z.log2 (Z.pos a) <= Z.log2 (Z.pos b)) by (apply Z.log2_le_mono; lia).
  repeat case_match; lia.
Qed.

(** The float32 nearest to a ratio [a/b] in (0, 1] is [m / 2^s] with
    [s] at least 23, and [a/b] is within half a unit [1 / 2^s] of it. *)
Lemma float32_of_ratio_close a b :
  (a <= b)%positive →
  ∃ m s, float32_of_ratio a b = Finite (m # Z.to_pos (2 ^ s))
       ∧ 23 <= s
       ∧ 0 <= m
       ∧ 2 * Z.abs (m * Z.pos b - Z.pos a * 2 ^ s) <= Z.pos b.
Proof.
  intros Hab. pose proof (floor_log2_le a b Hab) as He.
  unfold float32_of_ratio.
  set (u := Z.max (floor_log2 a b) (-126) - 23).
  assert (Hu : u <= -23) by lia.
  replace (0 <=? u) with false by (symmetry; apply Z.leb_gt; lia).
  exists (round_half_even (Z.pos a * 2 ^ (- u)) (Z.pos b)), (- u).
  assert (0 < 2 ^ (- u)) by (apply Z.pow_pos_nonneg; lia).
  split_and!; [done | lia | apply round_half_even_nonneg; lia |].
  apply round_half_even_error. lia.
Qed.

(** So the threshold is within two units of [2^24 a/b]. *)
Lemma drop_threshold_close_ratio a b :
  (a <= b)%positive →
  let T := match float32_of_ratio a b with
           | Finite v => Z.max 0 (Z.min (2 ^ 24) (Qceiling (v * 16777216)))
           | Infinite negative => if negative then 0 else 2 ^ 24
           end in
  Z.pos a * 2 ^ 24 - Z.pos b <= T * Z.pos b
  ∧ T * Z.pos b < Z.pos a * 2 ^ 24 + 2 * Z.pos b.
Proof.
  intros Hab.
  destruct (float32_of_ratio_close a b Hab) as (m & s & -> & Hs & Hm & Herr).
  cbv zeta.
  set (K := 2 ^ s) in *.
  assert (HK : 2 ^ 23 <= K) by (apply Z.pow_le_mono_r; lia).
  set (x := ((m # Z.to_pos K) * 16777216)%Q).
  pose proof (Qle_ceiling x) as Hle.
  pose proof (Qceiling_lt x) as Hlt.
  set (c := Qceiling x) in *.
  assert (HKpos : Z.pos (Z.to_pos K) = K) by (apply Z2Pos.id; lia).
  unfold x, Qle, Qlt in Hle, Hlt. simpl in Hle, Hlt.
  rewrite ?Pos.mul_1_r, ?Z.mul_1_r, ?HKpos in Hle, Hlt.
  clearbody K c. clear x HKpos.
  set (A := Z.pos a) in *. set (B := Z.pos b) in *.
  assert (HB : 0 < B) by (unfold B; lia).
  assert (HAB : A <= B) by (unfold A, B; lia).
  assert (HA : 0 < A) by (unfold A; lia).
  clearbody A B. change (2 ^ 23) with 8388608 in HK.
  change (2 ^ 24) with 16777216.
  assert (Hle2 : m * 16777216 * B <= c * K * B)
    by (apply Z.mul_le_mono_nonneg_r; lia).
  assert (Hlt2 : (c - 1) * K * B < m * 16777216 * B)
    by (apply Z.mul_lt_mono_pos_r; lia).
  assert (HK2 : 16777216 * B <= 2 * K * B)
    by (apply Z.mul_le_mono_nonneg_r; lia).
  assert (Hlow : A * 16777216 - B <= c * B).
  { apply (Z.mul_le_mono_pos_l _ _ K); lia. }
  assert (Hhigh : c * B < A * 16777216 + 2 * B).
  { apply (Z.mul_lt_mono_pos_l K); lia. }
  destruct (Z.max_spec 0 (Z.min 16777216 c)) as [[? ->]|[? ->]];
    destruct (Z.min_spec 16777216 c) as [[? Hmin]|[? Hmin]];
    rewrite Hmin in *; nia.
Qed.

(** Of the [2^24] values of a draw, the share that is below a
    probability [p] is within [2^-23] of [p]. *)
Lemma drop_threshold_close p :
  (0 <= p)%Q → (p <= 1)%Q →
  (p - (1 # 16777216) <= drop_threshold p # 16777216)%Q
  ∧ (drop_threshold p # 16777216 < p + (2 # 16777216))%Q.
Proof.
  intros H0 H1. unfold drop_threshold, to_float32. cbv zeta.
  pose proof (Qred_correct p) as Hq.
  remember (Qred p) as q eqn:Heq. clear Heq.
  rewrite <- Hq in H0, H1. rewrite <- Hq. clear Hq p.
  destruct q as [[|a|a] b]; simpl.
  - change (Z.max 0 (Z.min (2 ^ 24) (Qceiling (0 * 16777216)))) with 0.
    unfold Qle, Qlt; simpl. lia.
  - assert (Hab : (a <= b)%positive) by (unfold Qle in H1; simpl in H1; lia).
    pose proof (drop_threshold_close_ratio a b Hab) as [Hlow Hhigh].
    cbv zeta in Hlow, Hhigh.
    destruct (float32_of_ratio a b) as [v|[]];
      unfold Qle, Qlt, Qminus, Qplus, Qopp; simpl;
      change (2 ^ 24) with 16777216 in *; lia.
  - unfold Qle in H0; simpl in H0. lia.
Qed.

(** A probability of 1.0 always fires, a probability of 0.0 never. *)
Lemma draw_below_one raw p : (p == 1)%Q → float_lt (rand_value raw) p = true.
Proof.
  intros Hp. unfold float_lt. rewrite (to_float32_one p Hp).
  apply negb_true_iff, not_true_iff_false. rewrite Qle_bool_iff.
  apply Qlt_not_le.
  eapply Qlt_le_trans; [apply rand_value_range|]. unfold Qle; simpl; lia.
Qed.

Lemma draw_not_below_zero raw p :
  (p == 0)%Q → float_lt (rand_value raw) p = false.
Proof.
  intros Hp. unfold float_lt. rewrite (to_float32_zero p Hp).
  apply negb_false_iff, Qle_bool_iff, rand_value_range.
Qed.

(** Only a positive probability fires. *)
Lemma float_lt_positive x p :
  (0 <= x)%Q → float_lt x p = true → (0 < p)%Q.
Proof.
  intros Hx. unfold float_lt, to_float32.
  rewrite <- (Qred_correct p) at 2.
  destruct (Qred p) as [a b]. simpl. destruct a as [|a|a].
  - intros Hlt. apply negb_true_iff, not_true_iff_false in Hlt.
    rewrite Qle_bool_iff in Hlt. done.
  - intros _. by unfold Qlt.
  - pose proof (float32_of_ratio_not_negative a b) as Hinf.
    destruct (float32_of_ratio a b) as [v|[]] eqn:Hv; simpl; [|done..].
    intros Hlt. apply negb_true_iff, not_true_iff_false in Hlt.
    rewrite Qle_bool_iff in Hlt. exfalso. apply Hlt.
    apply float32_of_ratio_nonneg in Hv.
    apply Qle_trans with 0%Q; [|done].
    apply (Qopp_le_compat 0 v) in Hv. exact Hv.
Qed.

(** ** Python's generator *)

Lemma getrandbits_words_nonneg words k tape pos :
  0 <= getrandbits_words words k tape pos.
Proof.
  revert k pos. induction words as [|words IH]; intros k pos; simpl; [lia|].
  specialize (IH (k - 32) (S pos)).
  assert (0 <= word32 (tape pos))
    by (unfold word32; apply Z.land_nonneg; lia).
  assert (0 <= Z.shiftr (word32 (tape pos)) (32 - k))
    by (by apply Z.shiftr_nonneg).
  destruct (k <? 32); lia.
Qed.

Lemma getrandbits_nonneg k tape pos : 0 <= (getrandbits k tape pos).1.
Proof.
  unfold getrandbits. destruct (k <=? 32); simpl.
  - apply Z.shiftr_nonneg. unfold word32. apply Z.land_nonneg. lia.
  - apply getrandbits_words_nonneg.
Qed.

Lemma getrandbits_pos k tape pos :
  (getrandbits k tape pos).2 = (pos + words_of k)%nat.
Proof.
  unfold getrandbits, words_of. destruct (k <=? 32); simpl; lia.
Qed.

(** [_randbelow] returns the first value below [n] among the calls of
    [getrandbits], when there is one within the fuel. *)
Lemma randbelow_loop_iff fuel n k tape pos r pos' :
  randbelow_loop fuel n k tape pos = (Some r, pos')
  ↔ ∃ t, (t < fuel)%nat
      ∧ (∀ i, (i < t)%nat →
           n <= (getrandbits k tape (pos + i * words_of k)%nat).1)
      ∧ (getrandbits k tape (pos + t * words_of k)%nat).1 = r
      ∧ r < n
      ∧ pos' = (pos + S t * words_of k)%nat.
Proof.
  revert pos. induction fuel as [|fuel IH]; intros pos; simpl.
  { split; [discriminate | intros (t & ? & _); lia]. }
  pose proof (getrandbits_pos k tape pos) as Hpos.
  destruct (getrandbits k tape pos) as [r0 pos0] eqn:Hcall.
  simpl in Hpos. subst pos0.
  destruct (n <=? r0) eqn:Hle.
  - apply Z.leb_le in Hle. rewrite IH. split.
    + intros (t & Ht & Hrej & Hacc & Hr & ->). exists (S t).
      split_and!; [lia | | | done | lia].
      * intros [|i] Hi.
        -- rewrite Nat.add_0_r, Hcall. done.
        -- replace (pos + S i * words_of k)%nat
             with (pos + words_of k + i * words_of k)%nat by lia.
           apply Hrej. lia.
      * replace (pos + S t * words_of k)%nat
          with (pos + words_of k + t * words_of k)%nat by lia.
        done.
    + intros ([|t] & Ht & Hrej & Hacc & Hr & ->).
      { rewrite Nat.add_0_r, Hcall in Hacc. simpl in Hacc. lia. }
      exists t. split_and!; [lia | | | done | lia].
      * intros i Hi.
        replace (pos + words_of k + i * words_of k)%nat
          with (pos + S i * words_of k)%nat by lia.
        apply Hrej. lia.
      * replace (pos + words_of k + t * words_of k)%nat
          with (pos + S t * words_of k)%nat by lia.
        done.
  - apply Z.leb_gt in Hle. split.
    + intros [= <- <-]. exists 0%nat.
      split_and!; [lia | intros; lia | | done | lia].
      by rewrite Nat.add_0_r, Hcall.
    + intros ([|t] & Ht & Hrej & Hacc & Hr & ->).
      * rewrite Nat.add_0_r, Hcall in Hacc. simpl in Hacc. subst r0.
        f_equal. lia.
      * specialize (Hrej 0%nat ltac:(lia)).
        rewrite Nat.add_0_r, Hcall in Hrej. simpl in Hrej. lia.
Qed.

Lemma attempt_nonneg n st i : 0 <= attempt n st i.
Proof. apply getrandbits_nonneg. Qed.

(** For [n] below [2^32] a call takes one word, and keeps its
    [n.bit_length()] highest bits. *)
Lemma attempt_word n st i :
  0 < n < 2 ^ 32 →
  attempt n st i =
  Z.shiftr (Z.land (py_tape st (py_pos st + i)%nat) (2 ^ 32 - 1))
           (32 - (Z.log2 n + 1)).
Proof.
  intros Hn. unfold attempt, words_of, getrandbits, bit_length, word32.
  assert (Z.log2 n < 32) by (apply Z.log2_lt_pow2; lia).
  replace (Z.log2 n + 1 <=? 32) with true by (symmetry; apply Z.leb_le; lia).
  simpl. by rewrite Nat.mul_1_r.
Qed.

(** [random.sample(l, k=1)[0]] returns exactly when a call of
    [getrandbits] within the fuel gives a value below [len(l)]; it
    returns the element at the first such value, and the generator has
    advanced past that call. *)
Lemma random_sample1_iff {A} (l : list A) st c st' :
  random_sample1 l st = (Ok c, st')
  ↔ ∃ t, (t < py_fuel st)%nat
      ∧ (∀ i, (i < t)%nat →
           Z.of_nat (length l) <= attempt (Z.of_nat (length l)) st i)
      ∧ attempt (Z.of_nat (length l)) st t < Z.of_nat (length l)
      ∧ l !! Z.to_nat (attempt (Z.of_nat (length l)) st t) = Some c
      ∧ st' = mkRandom (torch_tape st) (torch_pos st) (py_tape st)
                (py_pos st
                 + S t * words_of (bit_length (Z.of_nat (length l))))%nat
                (py_fuel st).
Proof.
  destruct l as [|x l'].
  { split; [discriminate|]. intros (t & _ & _ & Hlt & _).
    pose proof (attempt_nonneg (Z.of_nat (length (@nil A))) st t).
    simpl in *. lia. }
  unfold random_sample1. cbv beta iota.
  remember (x :: l') as l eqn:Hl.
  remember (Z.of_nat (length l)) as n eqn:Hn.
  assert (Hnth : ∀ r, 0 <= r < n →
                      l !! Z.to_nat r = Some (nth (Z.to_nat r) l x)).
  { intros r Hr. rewrite nth_lookup.
    destruct (lookup_lt_is_Some_2 l (Z.to_nat r)) as [y Hy]; [lia|].
    by rewrite Hy. }
  destruct (randbelow _ _ _ _) as [[r|] pos'] eqn:Hrb.
  - apply randbelow_loop_iff in Hrb as (t & Ht & Hrej & Hacc & Hr & ->).
    fold (attempt n st t) in Hacc.
    pose proof (attempt_nonneg n st t) as Hnn.
    split.
    + intros [= <- <-]. exists t.
      split_and!; [done | exact Hrej | lia | | done].
      rewrite Hacc. apply Hnth. lia.
    + intros (t' & Ht' & Hrej' & Hacc' & Hc & ->).
      assert (t' = t) as ->.
      { destruct (Nat.lt_total t t') as [Hlt|[->|Hlt]]; [|done|].
        - specialize (Hrej' t Hlt). lia.
        - specialize (Hrej t' Hlt). unfold attempt in Hacc'. lia. }
      rewrite Hacc in Hc. rewrite Hnth in Hc by lia. by injection Hc as ->.
  - split; [discriminate|].
    intros (t & Ht & Hrej & Hacc & Hc & _).
    assert (Hsome : randbelow (py_fuel st) n (py_tape st) (py_pos st)
                    = (Some (attempt n st t),
                       (py_pos st + S t * words_of (bit_length n))%nat)).
    { apply randbelow_loop_iff. exists t. done. }
    rewrite Hsome in Hrb. discriminate.
Qed.

(** Lookups through a chain of insertions at literal keys. *)
Ltac lookup_keys :=
  repeat (rewrite lookup_insert_eq
          || rewrite lookup_insert_ne by (intro; discriminate)).

(** ** [__getitem__], block by block *)

Section Blocks.
Context `{Collaborators}.
Implicit Types (self : StreamingImageCaptionDataset) (st : RandomState).
Implicit Types (out : gmap string SampleVal) (sample : gmap string PyVal).

(** The blocks a successful call went through. *)
Lemma getitem_blocks self index st out st' :
  __getitem__ self index st = (Ok out, st') →
  ∃ sample img img' crop_top crop_left st1 out1 st2 caption out2 ids mask,
    StreamingDataset_getitem (base self) index = Ok sample
    ∧ load_image self sample = Ok img
    ∧ image_transforms self img st = (Ok (img', crop_top, crop_left), st1)
    ∧ (if sdxl self
       then microconditioning self (im_size img).1 (im_size img).2
              img' crop_top crop_left (<["image" := SImage img']> ∅)
       else mret (<["image" := SImage img']> ∅)) st1 = (Ok out1, st2)
    ∧ select_caption self sample out1 st2 = (Ok (caption, out2), st')
    ∧ tokenize_caption self caption = Ok (ids, mask)
    ∧ out = <["attention_mask" := mask]> (<["captions" := ids]> out2).
Proof.
  unfold __getitem__. intros Hrun.
  apply bind_ok in Hrun as (sample & s0 & [Hsample ->]%lift_ok & Hrun).
  apply bind_ok in Hrun as (img & s0 & [Himg ->]%lift_ok & Hrun).
  destruct (im_size img) as [orig_w orig_h] eqn:Hsize.
  apply bind_ok in Hrun as ([[img' crop_top] crop_left] & st1 & Htrans & Hrun).
  apply bind_ok in Hrun as (out1 & st2 & Hcond & Hrun).
  apply bind_ok in Hrun as ([caption out2] & st3 & Hcap & Hrun).
  apply bind_ok in Hrun as ([ids mask] & s0 & [Htok ->]%lift_ok & Hrun).
  apply mret_ok in Hrun as [-> ->].
  exists sample, img, img', crop_top, crop_left, st1, out1, st2, caption, out2,
    ids, mask.
  rewrite Hsize. done.
Qed.

Lemma scale_item_tensor k c (t : Tensor Z) out :
  out !! k = Some (STensor t) →
  scale_item k c out = Ok (<[k := STensor (mul_scalar t c)]> out).
Proof. intros Hk. unfold scale_item, subscript. by rewrite Hk. Qed.

Lemma mul_scalar_zero a b : mul_scalar (tensor [a; b]) 0 = tensor [0; 0].
Proof. unfold mul_scalar, tensor; simpl. by rewrite !Z.mul_0_r. Qed.

(** One dropout step: [if u < p: out[k] = out[k] * 0]. *)
Lemma drop_step k (dropped : bool) a b out st :
  out !! k = Some (STensor (tensor [a; b])) →
  (if dropped then lift (scale_item k 0 out) else mret out) st
  = (Ok (<[k := STensor (after_drop dropped a b)]> out), st).
Proof.
  intros Hk. destruct dropped; simpl.
  - unfold lift. by rewrite (scale_item_tensor _ _ _ _ Hk), mul_scalar_zero.
  - unfold mret, M_ret. by rewrite insert_id.
Qed.

(** The microconditioning block in closed form: it fails only when
    the size of the image cannot be read, and it takes three draws,
    one for each vector. *)
Lemma microconditioning_eq self orig_w orig_h img crop_top crop_left out st :
  microconditioning self orig_w orig_h img crop_top crop_left out st =
  match image_size img with
  | Raise e => (Raise e, st)
  | Ok (img_w, img_h) =>
      let p := microcond_drop_prob self in
      (Ok (<["cond_target_size" := STensor (after_drop
              (float_lt (draw_after st 2) p) img_w img_h)]>
          (<["cond_original_size" := STensor (after_drop
              (float_lt (draw_after st 1) p) orig_w orig_h)]>
          (<["cond_crops_coords_top_left" := STensor (after_drop
              (float_lt (draw_after st 0) p) crop_top crop_left)]>
          (<["cond_target_size" := STensor (tensor [img_w; img_h])]>
          (<["cond_original_size" := STensor (tensor [orig_w; orig_h])]>
          (<["cond_crops_coords_top_left" :=
              STensor (tensor [crop_top; crop_left])]> out)))))),
       after_draws 3 st)
  end.
Proof.
  unfold microconditioning, draw_after.
  unfold mbind at 1, M_bind at 1, lift at 1.
  destruct (image_size img) as [[img_w img_h]|e]; [|done].
  rewrite Nat.add_0_r.
  replace (torch_pos st + 1)%nat with (S (torch_pos st)) by lia.
  replace (torch_pos st + 2)%nat with (S (S (torch_pos st))) by lia.
  unfold mbind at 1, M_bind at 1. rewrite torch_rand_run.
  unfold mbind at 1, M_bind at 1.
  erewrite drop_step by (by lookup_keys).
  unfold mbind at 1, M_bind at 1. rewrite torch_rand_run. simpl.
  unfold mbind at 1, M_bind at 1.
  erewrite drop_step by (by lookup_keys).
  unfold mbind at 1, M_bind at 1. rewrite torch_rand_run. simpl.
  unfold mbind at 1, M_bind at 1.
  erewrite drop_step by (by lookup_keys).
  reflexivity.
Qed.

(** What a successful run of the block leaves in the sample. *)
Lemma microconditioning_run self orig_w orig_h img crop_top crop_left
    out st out' st' :
  microconditioning self orig_w orig_h img crop_top crop_left out st
    = (Ok out', st') →
  ∃ img_w img_h,
    image_size img = Ok (img_w, img_h)
    ∧ out' !! "cond_crops_coords_top_left" =
        Some (STensor (after_drop
          (float_lt (draw_after st 0) (microcond_drop_prob self))
          crop_top crop_left))
    ∧ out' !! "cond_original_size" =
        Some (STensor (after_drop
          (float_lt (draw_after st 1) (microcond_drop_prob self))
          orig_w orig_h))
    ∧ out' !! "cond_target_size" =
        Some (STensor (after_drop
          (float_lt (draw_after st 2) (microcond_drop_prob self))
          img_w img_h))
    ∧ (∀ k, k ≠ "cond_crops_coords_top_left" → k ≠ "cond_original_size" →
            k ≠ "cond_target_size" → out' !! k = out !! k).
Proof.
  rewrite microconditioning_eq.
  destruct (image_size img) as [[img_w img_h]|e]; [|discriminate].
  intros [= <- <-]. exists img_w, img_h.
  split_and!; [done | | | |].
  - by lookup_keys.
  - by lookup_keys.
  - by lookup_keys.
  - intros k ???. by rewrite !lookup_insert_ne.
Qed.

(** The caption block when the caption is dropped. *)
Lemma select_caption_dropped self sample out st :
  float_lt (draw_after st 0) (caption_drop_prob self) = true →
  select_caption self sample out st =
  (Ok (PyStr "",
       <["drop_caption_mask" :=
           SFloat (if zero_dropped_captions self then 0 else 1)]> out),
   after_draws 1 st).
Proof.
  unfold draw_after. rewrite Nat.add_0_r. intros Hdrop.
  unfold select_caption, mbind, M_bind. rewrite torch_rand_run, Hdrop.
  by destruct (zero_dropped_captions self).
Qed.

(** The caption block when the caption is kept. *)
Lemma select_caption_kept self sample out st caption out' st' :
  float_lt (draw_after st 0) (caption_drop_prob self) = false →
  select_caption self sample out st = (Ok (caption, out'), st') →
  out' = <["drop_caption_mask" := SFloat 1]> out
  ∧ torch_tape st' = torch_tape st
  ∧ torch_pos st' = S (torch_pos st)
  ∧ py_tape st' = py_tape st
  ∧ py_fuel st' = py_fuel st
  ∧ ∃ field,
      sample !! caption_key self = Some field
      ∧ (isinstance_List field = false → caption = field)
      ∧ (∀ l, field = PyList l → caption_selection self = "first" →
              l !! 0%nat = Some caption)
      ∧ (∀ l, field = PyList l → caption_selection self = "random" →
           ∃ t, (t < py_fuel st)%nat
             ∧ (∀ i, (i < t)%nat →
                  Z.of_nat (length l) <= attempt (Z.of_nat (length l)) st i)
             ∧ attempt (Z.of_nat (length l)) st t < Z.of_nat (length l)
             ∧ l !! Z.to_nat (attempt (Z.of_nat (length l)) st t)
               = Some caption
             ∧ py_pos st' =
                 (py_pos st
                  + S t * words_of (bit_length (Z.of_nat (length l))))%nat)
      ∧ ((∀ l, field = PyList l → caption_selection self ≠ "random") →
         py_pos st' = py_pos st).
Proof.
  unfold draw_after. rewrite Nat.add_0_r. intros Hkeep.
  unfold select_caption. intros Hrun.
  apply bind_ok in Hrun as (u & s1 & Hu & Hrun).
  rewrite torch_rand_run in Hu. injection Hu as <- <-.
  rewrite Hkeep in Hrun.
  apply bind_ok in Hrun as (field & s0 & [Hfield ->]%lift_ok & Hrun).
  apply bind_ok in Hrun as (c1 & s1 & Hfirst & Hrun).
  apply bind_ok in Hrun as (c2 & s2 & Hrandom & Hrun).
  apply mret_ok in Hrun as [[= -> ->] ->].
  split; [done|].
  unfold subscript in Hfield.
  destruct (sample !! caption_key self) as [v|] eqn:Hv; [|discriminate].
  injection Hfield as ->.
  destruct field as [| | | | |l|]; simpl in Hfirst, Hrandom;
    try (apply mret_ok in Hfirst as [-> ->]; simpl in Hrandom;
         apply mret_ok in Hrandom as [-> ->];
         split_and!; [done.. |]; eexists; split; [reflexivity|];
         split_and!; [done | intros ? [=] | intros ? [=] | done]).
  destruct (String.eqb (caption_selection self) "first") eqn:Hsel.
  - apply String.eqb_eq in Hsel.
    apply lift_ok in Hfirst as [Hfirst ->]. unfold list_index in Hfirst.
    destruct (l !! 0%nat) as [c|] eqn:Hc; [|discriminate].
    injection Hfirst as ->.
    rewrite Hsel, andb_false_r in Hrandom.
    apply mret_ok in Hrandom as [-> ->].
    split_and!; [done.. |]. eexists; split; [reflexivity|].
    split_and!; [discriminate | by intros ? [= <-] ? | | done].
    intros ? _ Hr. rewrite Hsel in Hr. discriminate.
  - apply String.eqb_neq in Hsel.
    apply mret_ok in Hfirst as [-> ->]. simpl in Hrandom.
    destruct (String.eqb (caption_selection self) "random") eqn:Hsel'.
    + apply random_sample1_iff in Hrandom
        as (t & Ht & Hrej & Hacc & Hc & ->).
      split_and!; [done.. |]. eexists; split; [reflexivity|].
      split_and!; [discriminate | by intros ? _ ? | |].
      * intros ? [= <-] _. exists t. done.
      * intros Hno. apply String.eqb_eq in Hsel'. by destruct (Hno l).
    + apply mret_ok in Hrandom as [-> ->].
      split_and!; [done.. |]. eexists; split; [reflexivity|].
      split_and!; [discriminate | by intros ? _ ? | | done].
      intros ? _ Hr. rewrite Hr in Hsel'. discriminate.
Qed.

(** In both cases the block sets [drop_caption_mask] to 0.0 or 1.0. *)
Lemma select_caption_mask self sample out st caption out' st' :
  select_caption self sample out st = (Ok (caption, out'), st') →
  out' = <["drop_caption_mask" := SFloat 0]> out
  ∨ out' = <["drop_caption_mask" := SFloat 1]> out.
Proof.
  destruct (float_lt (draw_after st 0) (caption_drop_prob self)) eqn:Hdrop.
  - rewrite select_caption_dropped by done. intros [= <- <- <-].
    destruct (zero_dropped_captions self); auto.
  - intros Hrun. right. by eapply select_caption_kept.
Qed.

(** After the caption block only [captions] and [attention_mask] are
    written. *)
Lemma lookup_final out2 ids mask k :
  k ≠ "captions" → k ≠ "attention_mask" →
  (<["attention_mask" := mask]> (<["captions" := ids]> out2)) !! k = out2 !! k.
Proof. intros ??. by rewrite !lookup_insert_ne. Qed.

(** The state in which the caption block of a producing call starts. *)
Lemma getitem_blocks_caption self index st out st' :
  __getitem__ self index st = (Ok out, st') →
  ∃ sample img post ct cl st1 out1 caption out2 ids mask,
    StreamingDataset_getitem (base self) index = Ok sample
    ∧ load_image self sample = Ok img
    ∧ image_transforms self img st = (Ok (post, ct, cl), st1)
    ∧ select_caption self sample out1 (before_caption self st1)
      = (Ok (caption, out2), st')
    ∧ tokenize_caption self caption = Ok (ids, mask)
    ∧ out = <["attention_mask" := mask]> (<["captions" := ids]> out2).
Proof.
  intros Hrun.
  apply getitem_blocks in Hrun
    as (sample & img & post & ct & cl & st1 & out1 & st2 & caption & out2
        & ids & mask & Hsample & Himg & Htrans & Hcond & Hcap & Htok & ->).
  exists sample, img, post, ct, cl, st1, out1, caption, out2, ids, mask.
  split_and!; try done.
  unfold before_caption. destruct (sdxl self).
  - rewrite microconditioning_eq in Hcond.
    destruct (image_size post) as [[w h]|e]; [|discriminate].
    by injection Hcond as _ <-.
  - by apply mret_ok in Hcond as [_ <-].
Qed.

(** ** Claims about [__getitem__] *)

(** C10: every sample [__getitem__] produces has the field
    [drop_caption_mask], and its value is 0.0 or 1.0, whatever the
    configuration. *)
Theorem drop_caption_mask_always_present self index st out st' :
  __getitem__ self index st = (Ok out, st') →
  out !! "drop_caption_mask" = Some (SFloat 0)
  ∨ out !! "drop_caption_mask" = Some (SFloat 1).
Proof.
  intros Hrun.
  apply getitem_blocks in Hrun
    as (sample & img & img' & ct & cl & st1 & out1 & st2 & caption & out2
        & ids & mask & _ & _ & _ & _ & Hcap & _ & ->).
  rewrite lookup_final by done.
  apply select_caption_mask in Hcap as [-> | ->];
    rewrite lookup_insert_eq; auto.
Qed.

(** C3: with a caption-drop probability of 1.0, the tokens and the
    attention mask of every produced sample are those of tokenizing the
    empty string, and [drop_caption_mask] is 0.0 when
    [zero_dropped_captions] is set and 1.0 otherwise. *)
Theorem dropped_caption_is_empty_string self index st out st' :
  (caption_drop_prob self == 1)%Q →
  __getitem__ self index st = (Ok out, st') →
  (∃ ids mask,
     tokenize_caption self (PyStr "") = Ok (ids, mask)
     ∧ out !! "captions" = Some ids
     ∧ out !! "attention_mask" = Some mask)
  ∧ out !! "drop_caption_mask" =
      Some (SFloat (if zero_dropped_captions self then 0 else 1)).
Proof.
  intros Hp Hrun.
  apply getitem_blocks in Hrun
    as (sample & img & img' & ct & cl & st1 & out1 & st2 & caption & out2
        & ids & mask & _ & _ & _ & _ & Hcap & Htok & ->).
  rewrite select_caption_dropped in Hcap by (by apply draw_below_one).
  injection Hcap as <- <- <-.
  split.
  - exists ids, mask. split_and!; [done | by lookup_keys | by lookup_keys].
  - rewrite lookup_final by done. by rewrite lookup_insert_eq.
Qed.

(** The draws of [torch] before the caption block leave Python's
    generator as the crop and the transform left it. *)
Lemma attempt_before_caption self st1 n i :
  attempt n (before_caption self st1) i = attempt n st1 i.
Proof. unfold before_caption. by destruct (sdxl self). Qed.

(** C4: with a caption-drop probability of 0.0, [drop_caption_mask] is
    1.0 in every produced sample, and the caption that is tokenized is
    taken from the caption field of the record: the field itself when
    it is a string, its element 0 under the policy [first], and under
    the policy [random] the element that [random.sample] picks.  With
    [n] the length of the list and [st1] the generators as the crop and
    the transform left them, [random.sample] calls
    [getrandbits(n.bit_length())] until a value is below [n], and that
    value is the index of the caption: every index is hit by exactly
    one value of a call, so uniform bits give a uniform choice.  For
    [n] below [2^32] call [i] reads word [i] of the generator and keeps
    its [n.bit_length()] highest bits. *)
Theorem kept_caption_is_selected_source_caption self index st out st' :
  (caption_drop_prob self == 0)%Q →
  __getitem__ self index st = (Ok out, st') →
  out !! "drop_caption_mask" = Some (SFloat 1)
  ∧ ∃ sample img post crop_top crop_left st1 field caption ids mask,
      StreamingDataset_getitem (base self) index = Ok sample
      ∧ load_image self sample = Ok img
      ∧ image_transforms self img st = (Ok (post, crop_top, crop_left), st1)
      ∧ sample !! caption_key self = Some field
      ∧ tokenize_caption self caption = Ok (ids, mask)
      ∧ out !! "captions" = Some ids
      ∧ out !! "attention_mask" = Some mask
      ∧ (∀ s, field = PyStr s → caption = PyStr s)
      ∧ (∀ l, field = PyList l → caption_selection self = "first" →
              l !! 0%nat = Some caption)
      ∧ (∀ l, field = PyList l → caption_selection self = "random" →
           let n := Z.of_nat (length l) in
           ∃ t, (t < py_fuel st1)%nat
             ∧ (∀ i, (i < t)%nat → n <= attempt n st1 i)
             ∧ 0 <= attempt n st1 t < n
             ∧ l !! Z.to_nat (attempt n st1 t) = Some caption
             ∧ py_pos st' = (py_pos st1 + S t * words_of (bit_length n))%nat
             ∧ (n < 2 ^ 32 →
                words_of (bit_length n) = 1%nat
                ∧ ∀ i, attempt n st1 i =
                       Z.shiftr
                         (Z.land (py_tape st1 (py_pos st1 + i)%nat)
                                 (2 ^ 32 - 1))
                         (32 - (Z.log2 n + 1)))).
Proof.
  intros Hp Hrun.
  apply getitem_blocks_caption in Hrun
    as (sample & img & post & ct & cl & st1 & out1 & caption & out2
        & ids & mask & Hsample & Himg & Htrans & Hcap & Htok & ->).
  apply select_caption_kept in Hcap
    as (-> & _ & _ & _ & _ & field & Hfield & Hsingle & Hfirst & Hrandom & _);
    [|by apply draw_not_below_zero].
  split.
  - rewrite lookup_final by done. by rewrite lookup_insert_eq.
  - exists sample, img, post, ct, cl, st1, field, caption, ids, mask.
    split_and!; [done.. | by lookup_keys | by lookup_keys | | done |].
    + intros s ->. by apply Hsingle.
    + intros l Hl Hsel n.
      destruct (Hrandom l Hl Hsel) as (t & Ht & Hrej & Hacc & Hc & Hpos).
      fold n in Hrej, Hacc, Hc, Hpos.
      assert (Hfuel : py_fuel (before_caption self st1) = py_fuel st1)
        by (unfold before_caption; by destruct (sdxl self)).
      assert (Hpy : py_pos (before_caption self st1) = py_pos st1)
        by (unfold before_caption; by destruct (sdxl self)).
      rewrite Hfuel in Ht. rewrite Hpy in Hpos.
      rewrite attempt_before_caption in Hacc, Hc.
      exists t. split_and!; [done | | apply attempt_nonneg | done..| ].
      * intros i Hi. rewrite <- (attempt_before_caption self). by apply Hrej.
      * intros Hn.
        assert (Hpos' : 0 < n < 2 ^ 32)
          by (pose proof (attempt_nonneg n st1 t); lia).
        split; [|intros i; by apply attempt_word].
        unfold words_of, bit_length.
        assert (Z.log2 n < 32) by (apply Z.log2_lt_pow2; lia).
        replace (Z.log2 n + 1 <=? 32) with true
          by (symmetry; apply Z.leb_le; lia).
        done.
Qed.

(** C5: in SDXL mode with a microconditioning-drop probability of 1.0,
    the three microconditioning vectors of every produced sample are
    the zero vector. *)
Theorem microcond_all_dropped_gives_zero_vectors self index st out st' :
  sdxl self = true →
  (microcond_drop_prob self == 1)%Q →
  __getitem__ self index st = (Ok out, st') →
  out !! "cond_crops_coords_top_left" = Some (STensor (tensor [0; 0]))
  ∧ out !! "cond_original_size" = Some (STensor (tensor [0; 0]))
  ∧ out !! "cond_target_size" = Some (STensor (tensor [0; 0])).
Proof.
  intros Hsdxl Hp Hrun.
  apply getitem_blocks in Hrun
    as (sample & img & img' & ct & cl & st1 & out1 & st2 & caption & out2
        & ids & mask & _ & _ & _ & Hcond & Hcap & _ & ->).
  rewrite Hsdxl in Hcond.
  apply microconditioning_run in Hcond
    as (img_w & img_h & _ & Hc1 & Hc2 & Hc3 & _).
  unfold draw_after in *.
  rewrite !draw_below_one in * by done. simpl in *.
  rewrite !lookup_final by done.
  apply select_caption_mask in Hcap as [-> | ->];
    rewrite !lookup_insert_ne by done; done.
Qed.

Lemma image_transforms_no_crop self img st post crop_top crop_left st1 :
  crop self = None →
  image_transforms self img st = (Ok (post, crop_top, crop_left), st1) →
  crop_top = 0 ∧ crop_left = 0.
Proof.
  unfold image_transforms. intros -> Hrun.
  apply bind_ok in Hrun as ([[i t] l] & s0 & [[= -> -> ->] ->]%mret_ok & Hrun).
  apply bind_ok in Hrun as (i' & s1 & _ & Hrun).
  by apply mret_ok in Hrun as [[= _ <- <-] _].
Qed.

(** With neither crop nor transform the image and the generators are
    left as they are. *)
Lemma image_transforms_plain self img st post crop_top crop_left st1 :
  crop self = None →
  transform self = None →
  image_transforms self img st = (Ok (post, crop_top, crop_left), st1) →
  post = ImgPIL img ∧ crop_top = 0 ∧ crop_left = 0 ∧ st1 = st.
Proof.
  unfold image_transforms. intros -> ->. by intros [= <- <- <- <-].
Qed.

(** A vector after its dropout is the vector itself, or zero, which
    needs a positive probability. *)
Lemma after_drop_cases raw p a b :
  after_drop (float_lt (rand_value raw) p) a b = tensor [a; b]
  ∨ (0 < p)%Q ∧ after_drop (float_lt (rand_value raw) p) a b = tensor [0; 0].
Proof.
  destruct (float_lt (rand_value raw) p) eqn:Hlt; [right | by left].
  split; [|done].
  eapply float_lt_positive; [apply rand_value_range | exact Hlt].
Qed.

(** C7, amended: in SDXL mode with no crop configured, for a record
    whose decoded image has size (W, H), the recorded crop offsets are
    (0, 0); [cond_original_size] is (W, H) and [cond_target_size] is
    the size of the image after the transform, unless the
    microconditioning dropout has set that vector to zero, which needs
    a positive drop probability. *)
Theorem no_crop_microconditioning_sizes self index st out st' sample img W Hh :
  sdxl self = true →
  crop self = None →
  StreamingDataset_getitem (base self) index = Ok sample →
  load_image self sample = Ok img →
  im_size img = (W, Hh) →
  __getitem__ self index st = (Ok out, st') →
  ∃ post w h,
    out !! "image" = Some (SImage post)
    ∧ image_size post = Ok (w, h)
    ∧ out !! "cond_crops_coords_top_left" = Some (STensor (tensor [0; 0]))
    ∧ (out !! "cond_original_size" = Some (STensor (tensor [W; Hh]))
       ∨ (0 < microcond_drop_prob self)%Q
         ∧ out !! "cond_original_size" = Some (STensor (tensor [0; 0])))
    ∧ (out !! "cond_target_size" = Some (STensor (tensor [w; h]))
       ∨ (0 < microcond_drop_prob self)%Q
         ∧ out !! "cond_target_size" = Some (STensor (tensor [0; 0]))).
Proof.
  intros Hsdxl Hcrop Hsample Himg Hsize Hrun.
  apply getitem_blocks in Hrun
    as (sample' & img0 & post & ct & cl & st1 & out1 & st2 & caption & out2
        & ids & mask & Hsample' & Himg' & Htrans & Hcond & Hcap & _ & ->).
  rewrite Hsample in Hsample'. injection Hsample' as <-.
  rewrite Himg in Himg'. injection Himg' as <-.
  destruct (image_transforms_no_crop _ _ _ _ _ _ _ Hcrop Htrans) as [-> ->].
  rewrite Hsdxl, Hsize in Hcond. simpl in Hcond.
  apply microconditioning_run in Hcond
    as (w & h & Hpost & Hc1 & Hc2 & Hc3 & Hrest).
  exists post, w, h.
  assert (Hout2 : ∀ k, k ≠ "drop_caption_mask" → out2 !! k = out1 !! k).
  { intros k Hk.
    apply select_caption_mask in Hcap as [-> | ->];
      by rewrite lookup_insert_ne. }
  rewrite !lookup_final, !Hout2 by done.
  rewrite Hc1, Hc2, Hc3, Hrest by done.
  split_and!; [by lookup_keys | done | | |].
  - by destruct (float_lt _ _).
  - unfold draw_after.
    destruct (after_drop_cases (torch_tape st1 (torch_pos st1 + 1)%nat)
                (microcond_drop_prob self) W Hh) as [-> | [? ->]]; auto.
  - unfold draw_after.
    destruct (after_drop_cases (torch_tape st1 (torch_pos st1 + 2)%nat)
                (microcond_drop_prob self) w h) as [-> | [? ->]]; auto.
Qed.


End Blocks.

(** ** Tensors: stacking and the logical or *)

Section TensorFacts.

Lemma stack_ok {A} (ts : list (Tensor A)) (t : Tensor A) :
  stack ts = Ok t →
  ∃ s, Forall (λ u, shape u = s) ts
       ∧ shape t = length ts :: s
       ∧ data t = concat (data <$> ts).
Proof.
  destruct ts as [|t0 rest]; [discriminate|]. simpl.
  destruct (forallb _ rest) eqn:Hall; [|discriminate].
  intros [= <-]. exists (shape t0). split_and!; [|done..].
  constructor; [done|].
  apply Forall_forall. intros u Hu.
  rewrite forallb_forall in Hall.
  apply list_elem_of_In, Hall, bool_decide_eq_true in Hu. done.
Qed.

(** The offsets of the multi-indices of a shape, in order, are
    0, 1, ..., numel - 1. *)
Lemma ravel_block d0 s j d :
  ravel s <$> indices s = seq 0 (numel s) →
  ravel (d0 :: s) <$> (seq j d ≫= λ i, cons i <$> indices s)
  = seq (j * numel s) (d * numel s).
Proof.
  intros IHs. revert j. induction d as [|d IH]; intros j; [done|].
  simpl seq. rewrite bind_cons, fmap_app, IH.
  replace (S d * numel s)%nat with (numel s + d * numel s)%nat by lia.
  rewrite seq_app. f_equal; [|f_equal; lia].
  rewrite <- list_fmap_compose.
  replace (seq (j * numel s) (numel s))
    with (seq (j * numel s + 0) (numel s)) by (f_equal; lia).
  rewrite <- fmap_add_seq, <- IHs, <- list_fmap_compose. done.
Qed.

Lemma ravel_indices s : ravel s <$> indices s = seq 0 (numel s).
Proof.
  induction s as [|d s IH]; [done|].
  simpl indices. by rewrite (ravel_block d s 0 d IH).
Qed.

Lemma indices_lookup s j idx :
  indices s !! j = Some idx → ravel s idx = j.
Proof.
  intros Hj.
  assert (Hr : (ravel s <$> indices s) !! j = Some (ravel s idx))
    by (by rewrite list_lookup_fmap, Hj).
  rewrite ravel_indices in Hr. apply lookup_seq in Hr. lia.
Qed.

(** Every multi-index of a shape stays below the sizes. *)
Lemma indices_bound s idx :
  idx ∈ indices s → Forall2 (λ i d, i < d)%nat idx s.
Proof.
  revert idx. induction s as [|d s IH]; intros idx Hidx; simpl in Hidx.
  - apply list_elem_of_singleton in Hidx as ->. constructor.
  - apply list_elem_of_bind in Hidx as (i & Hidx & Hi).
    apply list_elem_of_fmap in Hidx as (idx' & -> & Hidx').
    apply elem_of_seq in Hi. constructor; [lia | by apply IH].
Qed.

(** Broadcasting against the shape of the result reads the same
    element. *)
Lemma broadcast_index_same s idx :
  Forall2 (λ i d, i < d)%nat idx s → broadcast_index s idx = idx.
Proof.
  intros Hb. unfold broadcast_index.
  rewrite (Forall2_length _ _ _ Hb), Nat.sub_diag, drop_0.
  induction Hb as [|i d idx s Hi Hb IH]; [done|].
  simpl. rewrite IH. destruct (decide (d = 1%nat)); [f_equal; lia | done].
Qed.

Lemma broadcast_rev_same r : broadcast_rev r r = Some r.
Proof.
  induction r as [|a r IH]; [done|]. simpl.
  unfold broadcast_dim. rewrite decide_True by done. by rewrite IH.
Qed.

Lemma broadcast_shapes_same s : broadcast_shapes s s = Some s.
Proof.
  unfold broadcast_shapes. rewrite broadcast_rev_same. simpl.
  by rewrite reverse_involutive.
Qed.

(** [logical_or]: the shape is the broadcast shape, and the element
    at each multi-index is the or of the two elements read there. *)
Lemma logical_or_ok a b either :
  logical_or a b = Ok either →
  dtype either = dt_bool
  ∧ broadcast_shapes (shape a) (shape b) = Some (shape either)
  ∧ ∀ idx, idx ∈ indices (shape either) →
      item either idx =
      Some (nonzero (item a (broadcast_index (shape a) idx))
            || nonzero (item b (broadcast_index (shape b) idx))).
Proof.
  unfold logical_or.
  destruct (broadcast_shapes (shape a) (shape b)) as [s|]; [|discriminate].
  intros [= <-]. simpl. split_and!; [done..|].
  intros idx Hidx. unfold item at 1. simpl.
  apply list_elem_of_lookup in Hidx as [j Hj].
  rewrite (indices_lookup _ _ _ Hj), list_lookup_fmap, Hj. done.
Qed.

(** For operands of one shape that is position by position. *)
Lemma logical_or_same_shape a b either i x y :
  logical_or a b = Ok either →
  shape a = shape b → well_formed a → well_formed b →
  data a !! i = Some x → data b !! i = Some y →
  shape either = shape a
  ∧ data either !! i = Some (negb (x =? 0) || negb (y =? 0)).
Proof.
  unfold logical_or, well_formed. intros Hor Hshape Ha Hb Hx Hy.
  rewrite <- Hshape, broadcast_shapes_same in Hor.
  injection Hor as <-. simpl. split; [done|].
  assert (Hi : (i < numel (shape a))%nat)
    by (rewrite <- Ha; by eapply lookup_lt_Some).
  assert (Hidx : ∃ idx, indices (shape a) !! i = Some idx).
  { apply lookup_lt_is_Some.
    rewrite <- (length_fmap (ravel (shape a))), ravel_indices, length_seq.
    done. }
  destruct Hidx as [idx Hidx].
  rewrite list_lookup_fmap, Hidx. simpl.
  assert (Hbound : Forall2 (λ i d, i < d)%nat idx (shape a))
    by (apply indices_bound, list_elem_of_lookup; eauto).
  rewrite broadcast_index_same by done.
  unfold item. rewrite <- Hshape, (indices_lookup _ _ _ Hidx), Hx, Hy. done.
Qed.

End TensorFacts.

(** ** The tokens of a sample in SDXL mode *)

Section Tokens.
Context `{Collaborators}.
Implicit Types (self : StreamingImageCaptionDataset).

(** What [tokenize_caption] went through in SDXL mode. *)
Lemma tokenize_caption_sdxl self caption ids mask :
  sdxl self = true →
  tokenize_caption self caption = Ok (ids, mask) →
  ∃ enc seqs stacked m0 m1 either,
    tokenize (tokenizer self) caption None = Ok enc
    ∧ field_iter (input_ids enc) = Ok seqs
    ∧ stack (squeeze <$> seqs) = Ok stacked
    ∧ field_index (attention_mask enc) 0 = Ok m0
    ∧ field_index (attention_mask enc) 1 = Ok m1
    ∧ logical_or m0 m1 = Ok either
    ∧ ids = STensor stacked
    ∧ mask = STensor (bool_to either (dtype m0)).
Proof.
  unfold tokenize_caption. intros ->. simpl. intros Hrun.
  apply result_bind_ok in Hrun as (enc & Henc & Hrun).
  apply result_bind_ok in Hrun as (seqs & Hseqs & Hrun).
  apply result_bind_ok in Hrun as (stacked & Hstack & Hrun).
  apply result_bind_ok in Hrun as (m0 & Hm0 & Hrun).
  apply result_bind_ok in Hrun as (m1 & Hm1 & Hrun).
  apply result_bind_ok in Hrun as (either & Hor & Hrun).
  rewrite Hm0 in Hrun. simpl in Hrun. injection Hrun as <- <-.
  exists enc, seqs, stacked, m0, m1, either. done.
Qed.

(** [attention_masks[0]] and [attention_masks[1]] are elements 0 and 1
    of a list, and the slices 0 and 1 along the first axis of a
    tensor. *)
Lemma field_index_masks (f : TokField) m0 m1 :
  field_index f 0 = Ok m0 →
  field_index f 1 = Ok m1 →
  (∀ l, f = TFList l → l !! 0%nat = Some m0 ∧ l !! 1%nat = Some m1)
  ∧ (∀ t, f = TFTensor t →
       ∃ d s, shape t = d :: s
              ∧ (2 <= d)%nat
              ∧ m0 = mkTensor (dtype t) s (take (numel s) (data t))
              ∧ m1 = mkTensor (dtype t) s
                       (take (numel s) (drop (numel s) (data t)))).
Proof.
  destruct f as [t|l]; simpl; intros H0 H1.
  - split; [intros ? [=]|]. intros ? [= <-].
    unfold select0 in H0, H1. destruct (shape t) as [|d s]; [discriminate|].
    destruct (0 <? d)%nat; [|discriminate].
    destruct (1 <? d)%nat eqn:Hd; [|discriminate].
    apply Nat.ltb_lt in Hd.
    rewrite Nat.mul_0_l in H0. rewrite Nat.mul_1_l in H1.
    injection H0 as <-. injection H1 as <-.
    exists d, s. done.
  - split; [|intros ? [=]]. intros ? [= <-].
    unfold list_index in H0, H1.
    destruct (l !! 0%nat); [|discriminate].
    destruct (l !! 1%nat); [|discriminate].
    by injection H0 as <-; injection H1 as <-.
Qed.

(** C6: in SDXL mode the [captions] of a produced sample are the id
    sequences of the tokenizer, squeezed and stacked along a new first
    axis, and [attention_mask] has the dtype of the first mask and at
    each position the logical or of the two masks there: 1 when one
    of them is not zero, 0 otherwise.  The two masks are elements 0
    and 1 of the [attention_mask] of the tokenizer's output (its
    slices 0 and 1 when that is one tensor), the id sequences are the
    elements of its [input_ids], and the caption that is tokenized is
    the empty string when the caption-drop probability is 1.0. *)
Theorem sdxl_attention_mask_is_logical_or self index st out st' :
  sdxl self = true →
  __getitem__ self index st = (Ok out, st') →
  ∃ caption enc seqs m0 m1 captions am,
    tokenize (tokenizer self) caption None = Ok enc
    ∧ ((caption_drop_prob self == 1)%Q → caption = PyStr "")
    ∧ field_iter (input_ids enc) = Ok seqs
    ∧ (∀ l, input_ids enc = TFList l → seqs = l)
    ∧ (∀ l, attention_mask enc = TFList l →
         l !! 0%nat = Some m0 ∧ l !! 1%nat = Some m1)
    ∧ (∀ t, attention_mask enc = TFTensor t →
         ∃ d s, shape t = d :: s
                ∧ (2 <= d)%nat
                ∧ m0 = mkTensor (dtype t) s (take (numel s) (data t))
                ∧ m1 = mkTensor (dtype t) s
                         (take (numel s) (drop (numel s) (data t))))
    ∧ out !! "captions" = Some (STensor captions)
    ∧ out !! "attention_mask" = Some (STensor am)
    ∧ (∃ s, Forall (λ t, shape (squeeze t) = s) seqs
            ∧ shape captions = length seqs :: s)
    ∧ data captions = concat (data <$> seqs)
    ∧ dtype am = dtype m0
    ∧ broadcast_shapes (shape m0) (shape m1) = Some (shape am)
    ∧ (∀ idx, idx ∈ indices (shape am) →
         item am idx =
         Some (if nonzero (item m0 (broadcast_index (shape m0) idx))
                  || nonzero (item m1 (broadcast_index (shape m1) idx))
               then 1 else 0))
    ∧ (shape m0 = shape m1 → well_formed m0 → well_formed m1 →
       shape am = shape m0
       ∧ ∀ i x y, data m0 !! i = Some x → data m1 !! i = Some y →
           data am !! i =
           Some (if negb (x =? 0) || negb (y =? 0) then 1 else 0)).
Proof.
  intros Hsdxl Hrun.
  apply getitem_blocks in Hrun
    as (sample & img & img' & ct & cl & st1 & out1 & st2 & caption & out2
        & ids & mask & _ & _ & _ & _ & Hcap & Htok & ->).
  apply tokenize_caption_sdxl in Htok
    as (enc & seqs & stacked & m0 & m1 & either & Henc & Hseqs & Hstack
        & Hm0 & Hm1 & Hor & -> & ->); [|done].
  exists caption, enc, seqs, m0, m1, stacked, (bool_to either (dtype m0)).
  apply stack_ok in Hstack as (s & Hshapes & Hshape & Hdata).
  rewrite length_fmap in Hshape.
  rewrite <- list_fmap_compose in Hdata.
  apply Forall_fmap in Hshapes.
  destruct (field_index_masks _ _ _ Hm0 Hm1) as [Hlist Htensor].
  split_and!; [done | | done | | done | done | by lookup_keys
              | by lookup_keys | by exists s | done | done | | |].
  - intros Hp.
    rewrite select_caption_dropped in Hcap by (by apply draw_below_one).
    by injection Hcap as <- _ _.
  - intros l Hl. rewrite Hl in Hseqs. by injection Hseqs as <-.
  - by apply logical_or_ok in Hor as (_ & ? & _).
  - intros idx Hidx.
    apply logical_or_ok in Hor as (_ & _ & Hitem).
    specialize (Hitem idx Hidx). unfold item in *. simpl.
    rewrite list_lookup_fmap, Hitem. done.
  - intros Hsame Hwf0 Hwf1. split.
    + apply logical_or_ok in Hor as (_ & Hb & _).
      rewrite <- Hsame, broadcast_shapes_same in Hb.
      injection Hb as Hb. simpl. congruence.
    + intros i x y Hx Hy.
      destruct (logical_or_same_shape _ _ _ i x y Hor Hsame Hwf0 Hwf1 Hx Hy)
        as [_ Hi].
      simpl. rewrite list_lookup_fmap, Hi. done.
Qed.

End Tokens.

(** ** Construction *)

Section Construction.
Context `{Collaborators}.

Lemma str_in_two x a b : str_in x [a; b] = true ↔ x = a ∨ x = b.
Proof.
  unfold str_in. simpl. rewrite orb_false_r, orb_true_iff, !String.eqb_eq.
  done.
Qed.

(** The attributes of a dataset that [__init__] returned. *)
Lemma init_ok a ds :
  __init__ a = Ok ds →
  sdxl ds = Init.sdxl a
  ∧ caption_selection ds = lower (Init.caption_selection a)
  ∧ (caption_selection ds = "first" ∨ caption_selection ds = "random")
  ∧ load_tokenizer (Init.sdxl a) (Init.tokenizer_name_or_path a)
    = Ok (tokenizer ds).
Proof.
  unfold __init__. intros Hinit.
  apply result_bind_ok in Hinit as (b & _ & Hinit).
  destruct (str_in _ _) eqn:Hsel; simpl in Hinit; [|discriminate].
  apply result_bind_ok in Hinit as (tok & Htok & [= <-]). simpl.
  by apply str_in_two in Hsel.
Qed.

(** C2, amended: once the base class is initialised, [__init__] looks
    at the caption-selection policy in lower case.  It raises the
    [ValueError] of an invalid selection when the lower-cased value is
    neither 'first' nor 'random'; when it is one of the two, so also
    for 'FIRST' or 'Random', construction succeeds as soon as the
    tokenizer loads, and the dataset keeps the lower-cased value. *)
Theorem caption_selection_checked_in_lower_case (a : Init.Args) b :
  StreamingDataset_init (Init.streams a) (Init.remote a) (Init.local a)
    (vision_defaults (Init.streaming_kwargs a)) = Ok b →
  let selection := lower (Init.caption_selection a) in
  (selection ≠ "first" → selection ≠ "random" →
   __init__ a = Raise (invalid_caption_selection selection))
  ∧ (selection = "first" ∨ selection = "random" →
     ∀ tok,
       load_tokenizer (Init.sdxl a) (Init.tokenizer_name_or_path a) = Ok tok →
       ∃ ds, __init__ a = Ok ds ∧ caption_selection ds = selection).
Proof.
  intros Hbase selection. unfold __init__.
  rewrite (result_bind_run _ _ _ Hbase). fold selection. split.
  - intros Hf Hr.
    destruct (str_in selection ["first"; "random"]) eqn:Hsel; [|done].
    apply str_in_two in Hsel as [?|?]; done.
  - intros Hsel tok Htok. apply str_in_two in Hsel.
    rewrite Hsel, (result_bind_run _ _ _ Htok). simpl. eauto.
Qed.

End Construction.

(** ** The builder *)

Section Builder.
Context `{Collaborators}.

(** The mode of the dataset inside a loader the builder returned. *)
Lemma build_ok_sdxl a dl :
  build_streaming_image_caption_dataloader a = Ok dl →
  sdxl (dataset dl)
  = String.eqb (Build.tokenizer_name_or_path a) sdxl_tokenizer_name.
Proof.
  unfold build_streaming_image_caption_dataloader. intros Hbuild.
  apply result_bind_ok in Hbuild as (crop_type & _ & Hbuild).
  apply result_bind_ok in Hbuild as ([remote local] & _ & Hbuild).
  apply result_bind_ok in Hbuild as (rs & _ & Hbuild).
  apply result_bind_ok in Hbuild as (ls & _ & Hbuild).
  apply result_bind_ok in Hbuild as ([] & _ & Hbuild).
  apply result_bind_ok in Hbuild as (ds & Hinit & Hbuild).
  apply result_bind_ok in Hbuild as ([] & _ & Hbuild).
  apply result_bind_ok in Hbuild as ([] & _ & [= <-]).
  apply init_ok in Hinit as (Hsdxl & _). exact Hsdxl.
Qed.

(** C9: the dataset of a loader the builder returns is in SDXL mode
    exactly when the tokenizer identifier is the SDXL identifier, and
    two calls with one tokenizer identifier give one mode, whatever
    their other arguments. *)
Theorem sdxl_mode_follows_tokenizer_name a dl :
  build_streaming_image_caption_dataloader a = Ok dl →
  (sdxl (dataset dl) = true
   ↔ Build.tokenizer_name_or_path a
     = "stabilityai/stable-diffusion-xl-base-1.0")
  ∧ ∀ a' dl',
      Build.tokenizer_name_or_path a' = Build.tokenizer_name_or_path a →
      build_streaming_image_caption_dataloader a' = Ok dl' →
      sdxl (dataset dl') = sdxl (dataset dl).
Proof.
  intros Hbuild. apply build_ok_sdxl in Hbuild as Hmode. split.
  - rewrite Hmode. apply String.eqb_eq.
  - intros a' dl' Hname Hbuild'.
    apply build_ok_sdxl in Hbuild'. by rewrite Hbuild', Hmode, Hname.
Qed.

(** Sequences of different lengths are paired up to the shorter one:
    the builder treats them as it treats both cut to that length. *)
Lemma zip_take {A B} (rs : list A) (ls : list B) :
  Py.zip rs ls
  = Py.zip (take (length ls) rs) (take (length rs) ls).
Proof.
  revert ls. induction rs as [|r rs IH]; intros [|l ls]; simpl; [done..|].
  by rewrite <- IH.
Qed.

(** No length check stands in the way: on two lists the builder does
    what it does on the two lists cut to the shorter length. *)
Lemma build_pairs_up_to_the_shorter a rs ls :
  build_streaming_image_caption_dataloader
    (with_locations a (PyList rs) (PyList ls))
  = build_streaming_image_caption_dataloader
      (with_locations a (PyList (take (length ls) rs))
                        (PyList (take (length rs) ls))).
Proof.
  unfold build_streaming_image_caption_dataloader, not_raised. simpl.
  destruct (match Build.crop_type a with Some _ => _ | None => _ end)
    as [crop_type|e]; [|done]. simpl.
  rewrite !Tauto.if_same. simpl.
  by rewrite <- zip_take.
Qed.

End Builder.

(** ** More on the builder *)

Section BuilderMore.
Context `{Collaborators}.

Lemma str_in_three x a b c :
  str_in x [a; b; c] = true ↔ x = a ∨ x = b ∨ x = c.
Proof.
  unfold str_in. simpl.
  rewrite orb_false_r, !orb_true_iff, !String.eqb_eq. done.
Qed.

(** The outcome of the check of repeated keywords. *)
Lemma check_keywords_ok explicit kwargs :
  check_keywords explicit kwargs = Ok tt
  ↔ ∀ k, k ∈ explicit → kwargs !! k = None.
Proof.
  unfold check_keywords.
  destruct (filter _ explicit) as [|k rest] eqn:Hf.
  - split; [intros _ k Hk | done].
    destruct (kwargs !! k) as [v|] eqn:Hv; [|done].
    assert (Hin : k ∈ filter (λ k, is_Some (kwargs !! k)) explicit)
      by (apply list_elem_of_filter; eauto).
    rewrite Hf in Hin. by apply elem_of_nil in Hin.
  - split; [discriminate|]. intros Hnone.
    assert (Hin : k ∈ filter (λ k, is_Some (kwargs !! k)) explicit)
      by (rewrite Hf; left).
    apply list_elem_of_filter in Hin as [[v Hv] Hk].
    rewrite (Hnone k Hk) in Hv. discriminate.
Qed.

Lemma check_keywords_repeated explicit kwargs k :
  k ∈ explicit → is_Some (kwargs !! k) →
  ∃ msg, check_keywords explicit kwargs = Raise (TypeError msg).
Proof.
  intros Hk Hsome. unfold check_keywords.
  destruct (filter _ explicit) as [|k' rest] eqn:Hf; [|eauto].
  assert (Hin : k ∈ filter (λ k, is_Some (kwargs !! k)) explicit)
    by (by apply list_elem_of_filter).
  rewrite Hf in Hin. by apply elem_of_nil in Hin.
Qed.

(** The attributes [__init__] sets are its arguments. *)
Lemma init_fields a ds :
  __init__ a = Ok ds →
  crop ds = Init.crop a
  ∧ transform ds = Init.transform a
  ∧ sdxl ds = Init.sdxl a
  ∧ caption_drop_prob ds = Init.caption_drop_prob a
  ∧ microcond_drop_prob ds = Init.microcond_drop_prob a
  ∧ caption_selection ds = lower (Init.caption_selection a)
  ∧ image_key ds = Init.image_key a
  ∧ caption_key ds = Init.caption_key a
  ∧ zero_dropped_captions ds = Init.zero_dropped_captions a
  ∧ StreamingDataset_init (Init.streams a) (Init.remote a) (Init.local a)
      (vision_defaults (Init.streaming_kwargs a)) = Ok (base ds).
Proof.
  unfold __init__. intros Hinit.
  apply result_bind_ok in Hinit as (b & Hbase & Hinit).
  destruct (str_in _ _) eqn:Hsel; simpl in Hinit; [|discriminate].
  apply result_bind_ok in Hinit as (tok & Htok & [= <-]). simpl.
  split_and!; done.
Qed.


(** The check of [crop_type], as one equation. *)
Lemma crop_type_checked (crop_type : option string) :
  valid_crop_type crop_type = true →
  match crop_type with
  | Some crop_type =>
      let crop_type := lower crop_type in
      if negb (str_in crop_type ["square"; "random"; "aspect_ratio"])
      then Raise (invalid_crop_type crop_type)
      else Ok (Some crop_type)
  | None => Ok None
  end = Ok (lower <$> crop_type).
Proof.
  destruct crop_type as [ct|]; [|done]. unfold valid_crop_type.
  cbv zeta. by intros ->.
Qed.

(** The check of the locations never fails: it hands on the two lists
    of one element for two strings, and the arguments as they are
    otherwise. *)
Lemma locations_checked (remote local : PyVal) :
  (if isinstance_str remote && isinstance_str local
   then Ok (PyList [remote], PyList [local])
   else if isinstance_Sequence remote && isinstance_Sequence local
   then
     n1 ← len remote;
     n2 ← len local;
     if negb (n1 =? n2)
     then not_raised (length_mismatch n1 n2) (Ok (remote, local))
     else Ok (remote, local)
   else not_raised (type_mismatch remote local) (Ok (remote, local)))
  = Ok (paired_locations remote local).
Proof.
  unfold paired_locations, not_raised.
  destruct remote, local; simpl; try reflexivity;
    by rewrite Tauto.if_same.
Qed.

(** X1: a [crop_type] that, in lower case, is none of 'square',
    'random' and 'aspect_ratio' makes the builder raise the
    [ValueError] of an invalid crop type, whatever the other
    arguments are. *)
Theorem build_rejects_invalid_crop_type a crop_type :
  Build.crop_type a = Some crop_type →
  lower crop_type ≠ "square" →
  lower crop_type ≠ "random" →
  lower crop_type ≠ "aspect_ratio" →
  build_streaming_image_caption_dataloader a
  = Raise (invalid_crop_type (lower crop_type)).
Proof.
  intros Hct Hs Hr Ha. unfold build_streaming_image_caption_dataloader.
  rewrite Hct. cbv zeta.
  destruct (str_in (lower crop_type) _) eqn:Hin; [|done].
  apply str_in_three in Hin as [?|[?|?]]; done.
Qed.

(** What a successful call of the builder went through. *)
Lemma build_ok a dl :
  build_streaming_image_caption_dataloader a = Ok dl →
  let kwargs := default ∅ (Build.streaming_kwargs a) in
  let locations := paired_locations (Build.remote a) (Build.local a) in
  valid_crop_type (Build.crop_type a) = true
  ∧ ∃ rs ls crop,
      Py.iter locations.1 = Ok rs
      ∧ Py.iter locations.2 = Ok ls
      ∧ check_keywords dataset_keywords kwargs = Ok tt
      ∧ crop =
          match lower <$> Build.crop_type a with
          | Some crop_type =>
              if String.eqb crop_type "square"
              then Some (LargestCenterSquare (Build.resize_size a))
              else if String.eqb crop_type "random"
              then Some (RandomCropSquare (Build.resize_size a))
              else if String.eqb crop_type "aspect_ratio"
              then Some RandomCropAspectRatioTransorm
              else None
          | None => None
          end
      ∧ __init__
          {| Init.streams := Some ((λ rl, mkStream rl.1 rl.2) <$> Py.zip rs ls);
             Init.remote := default PyNone (kwargs !! "remote");
             Init.local := default PyNone (kwargs !! "local");
             Init.tokenizer_name_or_path := Build.tokenizer_name_or_path a;
             Init.caption_drop_prob := Build.caption_drop_prob a;
             Init.microcond_drop_prob := Build.microcond_drop_prob a;
             Init.caption_selection := Build.caption_selection a;
             Init.crop := crop;
             Init.transform :=
               Some (Compose
                 match Build.transform a with
                 | None =>
                     [ToTensor;
                      Normalize (1#2, 1#2, 1#2)%Q (1#2, 1#2, 1#2)%Q]
                 | Some transform => transform
                 end);
             Init.image_key := Build.image_key a;
             Init.caption_key := Build.caption_key a;
             Init.sdxl := String.eqb (Build.tokenizer_name_or_path a)
                                     sdxl_tokenizer_name;
             Init.zero_dropped_captions := Build.zero_dropped_captions a;
             Init.streaming_kwargs :=
               <["batch_size" := PyInt (Build.batch_size a)]>
                 (delete "remote" (delete "local" kwargs)) |}
        = Ok (dataset dl)
      ∧ check_keywords dataloader_keywords
          (default ∅ (Build.dataloader_kwargs a)) = Ok tt
      ∧ DataLoader_init (Build.batch_size a)
          (default ∅ (Build.dataloader_kwargs a)) = Ok tt
      ∧ dl_batch_size dl = Build.batch_size a
      ∧ dl_sampler dl = PyNone
      ∧ dl_kwargs dl = default ∅ (Build.dataloader_kwargs a).
Proof.
  unfold build_streaming_image_caption_dataloader. intros Hbuild.
  apply result_bind_ok in Hbuild as (crop_type & Hcrop & Hbuild).
  assert (valid_crop_type (Build.crop_type a) = true
          ∧ crop_type = lower <$> Build.crop_type a) as [Hvalid ->].
  { unfold valid_crop_type. destruct (Build.crop_type a) as [ct|].
    - cbv zeta in Hcrop. destruct (str_in (lower ct) _); [|done].
      by injection Hcrop as <-.
    - by injection Hcrop as <-. }
  rewrite locations_checked in Hbuild.
  apply result_bind_ok in Hbuild as ([remote local] & [= Hloc] & Hbuild).
  apply result_bind_ok in Hbuild as (rs & Hrs & Hbuild).
  apply result_bind_ok in Hbuild as (ls & Hls & Hbuild).
  apply result_bind_ok in Hbuild as ([] & Hkw & Hbuild).
  apply result_bind_ok in Hbuild as (ds & Hinit & Hbuild).
  apply result_bind_ok in Hbuild as ([] & Hdkw & Hbuild).
  apply result_bind_ok in Hbuild as ([] & Hdl & [= <-]).
  cbv zeta. rewrite Hloc. simpl.
  split; [done|]. eexists rs, ls, _. split_and!; try done.
Qed.

End BuilderMore.

Section BuilderExtras.
Context `{Collaborators}.

Lemma iter_ok_sequence v l : Py.iter v = Ok l → isinstance_Sequence v = true.
Proof. by destruct v. Qed.

Lemma iter_not_sequence v :
  isinstance_Sequence v = false →
  Py.iter v = Raise (TypeError "object is not iterable").
Proof. by destruct v. Qed.

Lemma paired_locations_sequence remote local :
  isinstance_Sequence (paired_locations remote local).1
  = isinstance_Sequence remote
  ∧ isinstance_Sequence (paired_locations remote local).2
    = isinstance_Sequence local.
Proof. unfold paired_locations. by destruct remote, local. Qed.

Lemma zip_length {A B} (rs : list A) (ls : list B) :
  length (Py.zip rs ls) = Nat.min (length rs) (length ls).
Proof.
  revert ls. induction rs as [|r rs IH]; intros [|l ls]; simpl; [done..|].
  by rewrite IH.
Qed.

Lemma zip_lookup {A B} (rs : list A) (ls : list B) i r l :
  Py.zip rs ls !! i = Some (r, l) ↔ rs !! i = Some r ∧ ls !! i = Some l.
Proof.
  revert ls i. induction rs as [|r0 rs IH]; intros [|l0 ls] [|i]; simpl;
    try (split; [discriminate | intros [? ?]; discriminate]).
  - split; [by intros [= -> ->] | by intros [[= ->] [= ->]]].
  - apply IH.
Qed.

(** X2: the crop of the dataset the builder makes follows [crop_type]
    read in lower case: none for [None], the largest centre square and
    the random square at [resize_size], and the aspect-ratio crop. *)
Theorem build_crop_follows_crop_type a dl :
  build_streaming_image_caption_dataloader a = Ok dl →
  (Build.crop_type a = None → crop (dataset dl) = None)
  ∧ ∀ crop_type, Build.crop_type a = Some crop_type →
      (lower crop_type = "square" →
       crop (dataset dl) = Some (LargestCenterSquare (Build.resize_size a)))
      ∧ (lower crop_type = "random" →
         crop (dataset dl) = Some (RandomCropSquare (Build.resize_size a)))
      ∧ (lower crop_type = "aspect_ratio" →
         crop (dataset dl) = Some RandomCropAspectRatioTransorm).
Proof.
  intros Hbuild. apply build_ok in Hbuild as (_ & rs & ls & c & _ & _ & _
    & Hc & Hinit & _).
  apply init_fields in Hinit as (-> & _). simpl. subst c.
  split; [by intros ->|]. intros ct ->. simpl.
  split_and!; by intros ->.
Qed.

(** X3: the builder hands its configuration on to the dataset and to
    the loader unchanged, but for the caption selection, kept in lower
    case, and the transforms, composed (the default pair when none is
    given); the loader has no sampler. *)
Theorem build_forwards_configuration a dl :
  build_streaming_image_caption_dataloader a = Ok dl →
  caption_drop_prob (dataset dl) = Build.caption_drop_prob a
  ∧ microcond_drop_prob (dataset dl) = Build.microcond_drop_prob a
  ∧ zero_dropped_captions (dataset dl) = Build.zero_dropped_captions a
  ∧ image_key (dataset dl) = Build.image_key a
  ∧ caption_key (dataset dl) = Build.caption_key a
  ∧ caption_selection (dataset dl) = lower (Build.caption_selection a)
  ∧ transform (dataset dl) =
      Some (Compose (default [ToTensor;
                              Normalize (1#2, 1#2, 1#2)%Q (1#2, 1#2, 1#2)%Q]
                             (Build.transform a)))
  ∧ dl_batch_size dl = Build.batch_size a
  ∧ dl_sampler dl = PyNone
  ∧ dl_kwargs dl = default ∅ (Build.dataloader_kwargs a).
Proof.
  intros Hbuild. apply build_ok in Hbuild as (_ & rs & ls & c & _ & _ & _
    & _ & Hinit & _ & _ & Hbs & Hsampler & Hkw).
  apply init_fields in Hinit
    as (_ & Ht & _ & Hcp & Hmp & Hsel & Hik & Hck & Hz & _).
  simpl in *. split_and!; done.
Qed.

(** X4: the builder returns a loader only for a configuration that is
    valid: a crop type that is absent or, in lower case, one of the
    three; a caption selection that, in lower case, is 'first' or
    'random'; locations that are sequences; and keyword dictionaries
    that repeat none of the keywords the builder writes out. *)
Theorem build_returns_only_for_valid_configuration a dl :
  build_streaming_image_caption_dataloader a = Ok dl →
  valid_crop_type (Build.crop_type a) = true
  ∧ (lower (Build.caption_selection a) = "first"
     ∨ lower (Build.caption_selection a) = "random")
  ∧ isinstance_Sequence (Build.remote a) = true
  ∧ isinstance_Sequence (Build.local a) = true
  ∧ (∀ k, k ∈ dataset_keywords →
          default ∅ (Build.streaming_kwargs a) !! k = None)
  ∧ (∀ k, k ∈ dataloader_keywords →
          default ∅ (Build.dataloader_kwargs a) !! k = None).
Proof.
  intros Hbuild. apply build_ok in Hbuild as (Hvalid & rs & ls & c & Hrs & Hls
    & Hkw & _ & Hinit & Hdkw & _).
  apply init_ok in Hinit as (_ & Hsel & Hvalid_sel & _). simpl in Hsel.
  rewrite Hsel in Hvalid_sel.
  apply iter_ok_sequence in Hrs, Hls.
  destruct (paired_locations_sequence (Build.remote a) (Build.local a))
    as [Hr Hl].
  rewrite Hr in Hrs. rewrite Hl in Hls.
  split_and!; try done; by apply check_keywords_ok.
Qed.

(** X5: a string given with a list is not wrapped: it is a sequence of
    its characters, and each character is paired with an element of
    the list. *)
Theorem build_string_with_list_pairs_characters a s ls :
  build_streaming_image_caption_dataloader
    (with_locations a (PyStr s) (PyList ls))
  = build_streaming_image_caption_dataloader
      (with_locations a (PyList (chars s)) (PyList ls)).
Proof.
  unfold build_streaming_image_caption_dataloader, not_raised. simpl.
  destruct (match Build.crop_type a with Some _ => _ | None => _ end)
    as [crop_type|e]; [|done]. simpl.
  by rewrite !Tauto.if_same.
Qed.

(** X6: when one of the two locations is no sequence (None, a number,
    an image), the [ValueError] the builder makes is not raised and the
    call fails in [zip] with a [TypeError]. *)
Theorem build_non_sequence_location_raises_type_error a :
  valid_crop_type (Build.crop_type a) = true →
  isinstance_Sequence (Build.remote a) = false
  ∨ isinstance_Sequence (Build.local a) = false →
  build_streaming_image_caption_dataloader a
  = Raise (TypeError "object is not iterable").
Proof.
  intros Hvalid Hseq. unfold build_streaming_image_caption_dataloader.
  pose proof (crop_type_checked _ Hvalid) as Hcrop. cbv zeta in Hcrop.
  cbv zeta. rewrite Hcrop. clear Hcrop.
  rewrite locations_checked.
  unfold mbind at 1, Result_bind at 1. unfold mbind at 1, Result_bind at 1.
  destruct (paired_locations_sequence (Build.remote a) (Build.local a))
    as [Hr Hl].
  destruct (paired_locations (Build.remote a) (Build.local a))
    as [remote local]. simpl in Hr, Hl.
  destruct (isinstance_Sequence (Build.remote a)) eqn:Hra.
  - destruct Hseq as [Hf|Hla]; [discriminate Hf|]. rewrite Hla in Hl.
    apply iter_not_sequence in Hl. rewrite Hl.
    destruct remote; try discriminate Hr; reflexivity.
  - apply iter_not_sequence in Hr. rewrite Hr. reflexivity.
Qed.

(** X7: an entry of [streaming_kwargs] named like one of the keywords
    the builder passes to the dataset makes the call of the dataset
    fail with a [TypeError]: the entry cannot replace the value the
    builder passes. *)
Theorem build_repeated_keyword_raises_type_error a kwargs k :
  valid_crop_type (Build.crop_type a) = true →
  isinstance_Sequence (Build.remote a) = true →
  isinstance_Sequence (Build.local a) = true →
  Build.streaming_kwargs a = Some kwargs →
  k ∈ dataset_keywords →
  is_Some (kwargs !! k) →
  ∃ msg, build_streaming_image_caption_dataloader a = Raise (TypeError msg).
Proof.
  intros Hvalid Hr Hl Hkw Hk Hsome.
  unfold build_streaming_image_caption_dataloader.
  pose proof (crop_type_checked _ Hvalid) as Hcrop. cbv zeta in Hcrop.
  cbv zeta. rewrite Hcrop. clear Hcrop.
  rewrite locations_checked.
  unfold mbind at 1, Result_bind at 1. unfold mbind at 1, Result_bind at 1.
  destruct (paired_locations_sequence (Build.remote a) (Build.local a))
    as [Hr' Hl'].
  destruct (paired_locations (Build.remote a) (Build.local a))
    as [remote local]. simpl in Hr', Hl'.
  rewrite Hr in Hr'. rewrite Hl in Hl'.
  destruct (Py.iter remote) as [rs|e] eqn:Hrs;
    [|by destruct remote].
  destruct (Py.iter local) as [ls|e] eqn:Hls;
    [|by destruct local].
  unfold mbind at 1, Result_bind at 1. unfold mbind at 1, Result_bind at 1.
  rewrite Hkw. simpl default.
  destruct (check_keywords_repeated dataset_keywords kwargs k Hk Hsome)
    as [msg ->].
  exists msg. reflexivity.
Qed.

(** X8: the base class is initialised with one stream for each pair of
    the zipped locations, as many as the shorter of the two has, and
    with the batch size among its keyword arguments. *)
Theorem build_initialises_base_with_streams a dl :
  build_streaming_image_caption_dataloader a = Ok dl →
  ∃ rs ls streams kwargs,
    Py.iter (paired_locations (Build.remote a) (Build.local a)).1 = Ok rs
    ∧ Py.iter (paired_locations (Build.remote a) (Build.local a)).2 = Ok ls
    ∧ StreamingDataset_init (Some streams)
        (default PyNone (default ∅ (Build.streaming_kwargs a) !! "remote"))
        (default PyNone (default ∅ (Build.streaming_kwargs a) !! "local"))
        kwargs
      = Ok (base (dataset dl))
    ∧ length streams = Nat.min (length rs) (length ls)
    ∧ (∀ i r l, streams !! i = Some (mkStream r l)
                ↔ rs !! i = Some r ∧ ls !! i = Some l)
    ∧ kwargs !! "batch_size" = Some (PyInt (Build.batch_size a)).
Proof.
  intros Hbuild. apply build_ok in Hbuild as (_ & rs & ls & c & Hrs & Hls
    & Hkw & _ & Hinit & _).
  apply init_fields in Hinit as (_ & _ & _ & _ & _ & _ & _ & _ & _ & Hbase).
  simpl in Hbase.
  eexists rs, ls, _, _. split_and!; [done | done | exact Hbase | | |].
  - by rewrite length_fmap, zip_length.
  - intros i r l. rewrite list_lookup_fmap. rewrite <- zip_lookup.
    destruct (Py.zip rs ls !! i) as [[r' l']|]; simpl; [|done].
    split; [by intros [= -> ->] | by intros [= -> ->]].
  - unfold vision_defaults, setdefault.
    repeat case_match; by lookup_keys.
Qed.

End BuilderExtras.

(** ** More on construction *)

Section ConstructionMore.
Context `{Collaborators}.

(** [setdefault] keeps a value that is there. *)
Lemma lookup_setdefault_eq {V} k (v : V) (d : gmap string V) :
  setdefault k v d !! k = Some (default v (d !! k)).
Proof.
  unfold setdefault. destruct (d !! k) eqn:Hk; simpl; [done|].
  by rewrite lookup_insert_eq.
Qed.

Lemma lookup_setdefault_ne {V} k k' (v : V) (d : gmap string V) :
  k ≠ k' → setdefault k v d !! k' = d !! k'.
Proof.
  intros Hne. unfold setdefault. destruct (d !! k); [done|].
  by rewrite lookup_insert_ne.
Qed.

(** X9: a dataset [__init__] returns holds the state of the base
    class initialised with keyword arguments in which the caller's
    [shuffle_block_size] and [shuffle_algo] are kept, 262144 and 'py1s'
    stand in when they are absent, and every other entry is unchanged;
    and its tokenizer is the SDXL tokenizer in SDXL mode and otherwise
    the pretrained tokenizer of the subfolder 'tokenizer'. *)
Theorem init_base_and_tokenizer a ds :
  __init__ a = Ok ds →
  (∃ kwargs,
     StreamingDataset_init (Init.streams a) (Init.remote a) (Init.local a)
       kwargs = Ok (base ds)
     ∧ kwargs !! "shuffle_block_size" =
         Some (default (PyInt 262144)
                       (Init.streaming_kwargs a !! "shuffle_block_size"))
     ∧ kwargs !! "shuffle_algo" =
         Some (default (PyStr "py1s")
                       (Init.streaming_kwargs a !! "shuffle_algo"))
     ∧ ∀ k, k ≠ "shuffle_block_size" → k ≠ "shuffle_algo" →
            kwargs !! k = Init.streaming_kwargs a !! k)
  ∧ (sdxl ds = true →
     SDXLTokenizer (Init.tokenizer_name_or_path a) = Ok (tokenizer ds))
  ∧ (sdxl ds = false →
     AutoTokenizer_from_pretrained (Init.tokenizer_name_or_path a)
       "tokenizer" = Ok (tokenizer ds)).
Proof.
  intros Hinit.
  pose proof (init_fields _ _ Hinit)
    as (_ & _ & _ & _ & _ & _ & _ & _ & _ & Hbase).
  apply init_ok in Hinit as (Hsdxl & _ & _ & Htok).
  split.
  - eexists. split; [exact Hbase|]. unfold vision_defaults.
    split_and!.
    + by rewrite lookup_setdefault_ne, lookup_setdefault_eq.
    + by rewrite lookup_setdefault_eq, lookup_setdefault_ne.
    + intros k ??. by rewrite !lookup_setdefault_ne.
  - unfold load_tokenizer in Htok. rewrite <- Hsdxl in Htok.
    split; intros Hmode; by rewrite Hmode in Htok.
Qed.

End ConstructionMore.

(** ** More on [__getitem__] *)

Section GetitemMore.
Context `{Collaborators}.
Implicit Types (self : StreamingImageCaptionDataset) (st : RandomState).
Implicit Types (out : gmap string SampleVal) (sample : gmap string PyVal).

(** A call whose record was fetched, whose image was loaded and whose
    crop and transform ran goes on with the later blocks. *)
Lemma getitem_after_transforms self index st sample img post ct cl st1 :
  StreamingDataset_getitem (base self) index = Ok sample →
  load_image self sample = Ok img →
  image_transforms self img st = (Ok (post, ct, cl), st1) →
  __getitem__ self index st =
  (out ← (if sdxl self
          then microconditioning self (im_size img).1 (im_size img).2
                 post ct cl (<["image" := SImage post]> ∅)
          else mret (<["image" := SImage post]> ∅));
   '(caption, out) ← select_caption self sample out;
   '(tokenized_caption, attention_mask) ←
     lift (tokenize_caption self caption);
   mret (<["attention_mask" := attention_mask]>
           (<["captions" := tokenized_caption]> out))) st1.
Proof.
  intros Hsample Himg Htrans. unfold __getitem__.
  unfold mbind at 1, M_bind at 1, lift at 1. rewrite Hsample.
  unfold mbind at 1, M_bind at 1, lift at 1. rewrite Himg.
  destruct (im_size img) as [orig_w orig_h].
  unfold mbind at 1, M_bind at 1. rewrite Htrans. reflexivity.
Qed.

Lemma getitem_at_caption self index st sample img post ct cl st1 :
  StreamingDataset_getitem (base self) index = Ok sample →
  load_image self sample = Ok img →
  image_transforms self img st = (Ok (post, ct, cl), st1) →
  (sdxl self = true → is_ok (image_size post) = true) →
  ∃ out1,
    __getitem__ self index st =
    ('(caption, out) ← select_caption self sample out1;
     '(tokenized_caption, attention_mask) ←
       lift (tokenize_caption self caption);
     mret (<["attention_mask" := attention_mask]>
             (<["captions" := tokenized_caption]> out)))
      (before_caption self st1).
Proof.
  intros Hsample Himg Htrans Hsize.
  rewrite (getitem_after_transforms _ _ _ _ _ _ _ _ _ Hsample Himg Htrans).
  unfold before_caption. destruct (sdxl self).
  - unfold mbind at 1, M_bind at 1. rewrite microconditioning_eq.
    destruct (image_size post) as [[w h]|e]; [|by discriminate Hsize].
    cbv zeta. eauto.
  - eexists. reflexivity.
Qed.

(** X10: a record without the image field makes [__getitem__] raise
    [KeyError] on the image key, before any random number is drawn. *)
Theorem getitem_missing_image_key self index st sample :
  StreamingDataset_getitem (base self) index = Ok sample →
  sample !! image_key self = None →
  __getitem__ self index st = (Raise (KeyError (image_key self)), st).
Proof.
  intros Hsample Hkey. unfold __getitem__.
  unfold mbind at 1, M_bind at 1, lift at 1. rewrite Hsample.
  unfold mbind at 1, M_bind at 1, lift at 1.
  unfold load_image, subscript. by rewrite Hkey.
Qed.

(** X11: in SDXL mode an image that after the transforms is neither a
    PIL image nor a tensor makes [__getitem__] raise the [ValueError]
    of an unsupported image, before the dropout draws. *)
Theorem getitem_unsupported_image self index st sample img v ct cl st1 :
  sdxl self = true →
  StreamingDataset_getitem (base self) index = Ok sample →
  load_image self sample = Ok img →
  image_transforms self img st = (Ok (ImgOther v, ct, cl), st1) →
  __getitem__ self index st = (Raise unsupported_image, st1).
Proof.
  intros Hsdxl Hsample Himg Htrans.
  rewrite (getitem_after_transforms _ _ _ _ _ _ _ _ _ Hsample Himg Htrans).
  rewrite Hsdxl. unfold mbind at 1, M_bind at 1.
  by rewrite microconditioning_eq.
Qed.

(** X12: the image [load_image] returns is in mode RGB; an image field
    that is an image keeps its size, and is returned as it is when it
    is in mode RGB already. *)
Theorem load_image_is_rgb self sample img :
  load_image self sample = Ok img →
  im_mode img = "RGB"
  ∧ ∀ i, sample !! image_key self = Some (PyImage i) →
         im_size img = im_size i ∧ (im_mode i = "RGB" → img = i).
Proof.
  unfold load_image. intros Hload.
  apply result_bind_ok in Hload as (field & Hfield & Hload).
  apply result_bind_ok in Hload as (raw & Hraw & [= <-]).
  split.
  - by case_bool_decide as Hmode.
  - intros i Hi. unfold subscript in Hfield. rewrite Hi in Hfield.
    injection Hfield as <-. injection Hraw as <-.
    by case_bool_decide as Hmode.
Qed.

(** The caption block draws once from [torch].  It leaves Python's
    generator alone unless a list of candidates is read under the
    policy 'random': then the generator advances past the calls of
    [getrandbits] that [random.sample] made. *)
Lemma select_caption_state self sample out st r st' :
  select_caption self sample out st = (Ok r, st') →
  torch_tape st' = torch_tape st
  ∧ torch_pos st' = S (torch_pos st)
  ∧ py_tape st' = py_tape st
  ∧ py_fuel st' = py_fuel st
  ∧ (py_pos st' = py_pos st
     ∨ caption_selection self = "random"
       ∧ ∃ l t,
           sample !! caption_key self = Some (PyList l)
           ∧ (t < py_fuel st)%nat
           ∧ (∀ i, (i < t)%nat →
                Z.of_nat (length l) <= attempt (Z.of_nat (length l)) st i)
           ∧ attempt (Z.of_nat (length l)) st t < Z.of_nat (length l)
           ∧ py_pos st' =
               (py_pos st
                + S t * words_of (bit_length (Z.of_nat (length l))))%nat).
Proof.
  destruct (float_lt (draw_after st 0) (caption_drop_prob self)) eqn:Hdrop.
  - rewrite select_caption_dropped by done. intros [= <- <-]. simpl.
    split_and!; auto.
  - destruct r as [caption out']. intros Hrun.
    apply select_caption_kept in Hrun
      as (_ & Htape & Hpos & Hpy & Hfuel & field & Hfield & _ & _
          & Hrandom & Hother); [|done].
    split_and!; [done.. |].
    destruct (decide (caption_selection self = "random")) as [Hsel|Hsel].
    + destruct field as [| | | | |l|];
        try (left; apply Hother; by intros ? [=]).
      right. split; [done|].
      destruct (Hrandom l eq_refl Hsel) as (t & Ht & Hrej & Hacc & _ & Hp).
      exists l, t. done.
    + left. apply Hother. by intros.
Qed.

(** X13: with neither crop nor transform configured, a call that
    produces a sample draws from [torch] four times in SDXL mode and
    once otherwise.  Python's generator is not stepped at all, unless
    the caption field is a list read under the policy 'random': then it
    has advanced past the calls of [getrandbits] that [random.sample]
    made, which are those up to the first value below the length of
    the list (one word a call for a list shorter than [2^32]). *)
Theorem getitem_draws self index st out st' :
  crop self = None →
  transform self = None →
  __getitem__ self index st = (Ok out, st') →
  torch_tape st' = torch_tape st
  ∧ torch_pos st' = (torch_pos st + (if sdxl self then 4 else 1))%nat
  ∧ py_tape st' = py_tape st
  ∧ (py_pos st' = py_pos st
     ∨ caption_selection self = "random"
       ∧ ∃ sample l t,
           StreamingDataset_getitem (base self) index = Ok sample
           ∧ sample !! caption_key self = Some (PyList l)
           ∧ (t < py_fuel st)%nat
           ∧ (∀ i, (i < t)%nat →
                Z.of_nat (length l) <= attempt (Z.of_nat (length l)) st i)
           ∧ attempt (Z.of_nat (length l)) st t < Z.of_nat (length l)
           ∧ py_pos st' =
               (py_pos st
                + S t * words_of (bit_length (Z.of_nat (length l))))%nat
           ∧ (Z.of_nat (length l) < 2 ^ 32 →
              py_pos st' = (py_pos st + S t)%nat
              ∧ ∀ i, attempt (Z.of_nat (length l)) st i =
                     Z.shiftr
                       (Z.land (py_tape st (py_pos st + i)%nat) (2 ^ 32 - 1))
                       (32 - (Z.log2 (Z.of_nat (length l)) + 1)))).
Proof.
  intros Hcrop Htransform Hrun.
  apply getitem_blocks_caption in Hrun
    as (sample & img & post & ct & cl & st1 & out1 & caption & out2
        & ids & mask & Hsample & _ & Htrans & Hcap & _ & _).
  assert (st1 = st) as ->.
  { unfold image_transforms in Htrans. rewrite Hcrop, Htransform in Htrans.
    by injection Htrans as _ _ _ <-. }
  apply select_caption_state in Hcap as (Htape & Hpos & Hpy & _ & Hpypos).
  assert (Hstate : torch_tape (before_caption self st) = torch_tape st
                   ∧ torch_pos (before_caption self st)
                     = ((if sdxl self then 3 else 0) + torch_pos st)%nat
                   ∧ py_tape (before_caption self st) = py_tape st
                   ∧ py_pos (before_caption self st) = py_pos st
                   ∧ py_fuel (before_caption self st) = py_fuel st)
    by (unfold before_caption; by destruct (sdxl self)).
  destruct Hstate as (Ht0 & Hp0 & Hpy0 & Hpos0 & Hfuel0).
  rewrite Ht0 in Htape. rewrite Hp0 in Hpos. rewrite Hpy0 in Hpy.
  rewrite Hpos0, Hfuel0 in Hpypos.
  split_and!; [done | destruct (sdxl self); lia | done |].
  destruct Hpypos as [Hsame | (Hsel & l & t & Hfield & Ht & Hrej & Hacc & Hp)];
    [by left | right].
  split; [done|]. exists sample, l, t.
  split_and!; [done | done | done | | | done |].
  - intros i Hi. rewrite <- (attempt_before_caption self). by apply Hrej.
  - by rewrite <- (attempt_before_caption self).
  - intros Hn. rewrite attempt_before_caption in Hacc.
    assert (Hpos' : 0 < Z.of_nat (length l) < 2 ^ 32)
      by (pose proof (attempt_nonneg (Z.of_nat (length l)) st t); lia).
    split; [|intros i; by apply attempt_word].
    rewrite Hp. unfold words_of, bit_length.
    assert (Z.log2 (Z.of_nat (length l)) < 32)
      by (apply Z.log2_lt_pow2; lia).
    replace (Z.log2 (Z.of_nat (length l)) + 1 <=? 32) with true
      by (symmetry; apply Z.leb_le; lia).
    lia.
Qed.

(** The keys of a produced sample. *)
Lemma getitem_dom self index st out st' :
  __getitem__ self index st = (Ok out, st') →
  dom out = sample_keys (sdxl self).
Proof.
  intros Hrun.
  apply getitem_blocks in Hrun
    as (sample & img & post & ct & cl & st1 & out1 & st2 & caption & out2
        & ids & mask & _ & _ & _ & Hcond & Hcap & _ & ->).
  assert (Hdom2 : dom out2 = {["drop_caption_mask"]} ∪ dom out1).
  { apply select_caption_mask in Hcap as [-> | ->]; by rewrite dom_insert_L. }
  rewrite !dom_insert_L, Hdom2. unfold sample_keys.
  destruct (sdxl self).
  - rewrite microconditioning_eq in Hcond.
    destruct (image_size post) as [[w h]|e]; [|discriminate].
    injection Hcond as <- _.
    rewrite !dom_insert_L, dom_empty_L. set_solver.
  - apply mret_ok in Hcond as [-> _].
    rewrite !dom_insert_L, dom_empty_L. set_solver.
Qed.

(** X14: the fields of a produced sample are [image], [captions],
    [attention_mask] and [drop_caption_mask], and in SDXL mode the
    three microconditioning vectors as well, and no other. *)
Theorem getitem_sample_keys self index st out st' k :
  __getitem__ self index st = (Ok out, st') →
  is_Some (out !! k) ↔ k ∈ sample_keys (sdxl self).
Proof.
  intros Hrun. rewrite <- (getitem_dom _ _ _ _ _ Hrun). symmetry.
  apply elem_of_dom.
Qed.

(** X15: the draw of the caption block decides the caption and the
    mask.  The draw is one of the [2^24] values [k / 2^24], and it is
    compared in float32: it counts as below the caption-drop
    probability when [k] is below [drop_threshold], the least [k] with
    [k / 2^24] no less than the probability rounded to float32 (never
    for 0.0, always for 1.0, and for a share of the draws within
    [2^-23] of a probability in between).  Then the empty string is
    tokenized, and
    [drop_caption_mask] is 0.0 exactly when moreover
    [zero_dropped_captions] is set; otherwise the caption field of the
    record is read and the mask is 1.0. *)
Theorem getitem_caption_dropout self index st out st' :
  __getitem__ self index st = (Ok out, st') →
  ∃ sample img post ct cl st1 caption ids mask,
    StreamingDataset_getitem (base self) index = Ok sample
    ∧ load_image self sample = Ok img
    ∧ image_transforms self img st = (Ok (post, ct, cl), st1)
    ∧ tokenize_caption self caption = Ok (ids, mask)
    ∧ out !! "captions" = Some ids
    ∧ out !! "attention_mask" = Some mask
    ∧ let dropped :=
        draw_bits (before_caption self st1) 0
        <? drop_threshold (caption_drop_prob self) in
      (dropped = true → caption = PyStr "")
      ∧ (dropped = false →
         ∃ field, sample !! caption_key self = Some field
                  ∧ (∀ s, field = PyStr s → caption = PyStr s))
      ∧ out !! "drop_caption_mask" =
          Some (SFloat (if dropped && zero_dropped_captions self
                        then 0 else 1))
      ∧ ((caption_drop_prob self == 0)%Q → dropped = false)
      ∧ ((caption_drop_prob self == 1)%Q → dropped = true)
      ∧ ((0 <= caption_drop_prob self)%Q →
         (caption_drop_prob self <= 1)%Q →
         (caption_drop_prob self - (1 # 16777216)
          <= drop_threshold (caption_drop_prob self) # 16777216)%Q
         ∧ (drop_threshold (caption_drop_prob self) # 16777216
            < caption_drop_prob self + (2 # 16777216))%Q).
Proof.
  intros Hrun.
  apply getitem_blocks_caption in Hrun
    as (sample & img & post & ct & cl & st1 & out1 & caption & out2
        & ids & mask & Hsample & Himg & Htrans & Hcap & Htok & ->).
  exists sample, img, post, ct, cl, st1, caption, ids, mask.
  split_and!; [done.. | by lookup_keys | by lookup_keys |].
  cbv zeta. rewrite lookup_final by done.
  rewrite <- draw_below_threshold.
  pose proof (drop_threshold_close (caption_drop_prob self)) as Hclose.
  assert (Hends :
    ((caption_drop_prob self == 0)%Q →
     float_lt (draw_after (before_caption self st1) 0)
       (caption_drop_prob self) = false)
    ∧ ((caption_drop_prob self == 1)%Q →
       float_lt (draw_after (before_caption self st1) 0)
         (caption_drop_prob self) = true)).
  { split; intros Hp; [by apply draw_not_below_zero | by apply draw_below_one]. }
  destruct (float_lt _ _) eqn:Hdrop.
  - rewrite select_caption_dropped in Hcap by done.
    injection Hcap as <- <- _.
    split_and!; [done | done | by rewrite lookup_insert_eq
                | apply Hends | apply Hends | exact Hclose].
  - apply select_caption_kept in Hcap
      as (-> & _ & _ & _ & _ & field & Hfield & Hsingle & _); [|done].
    split_and!; [done | | by rewrite lookup_insert_eq
                | apply Hends | apply Hends | exact Hclose].
    intros _. exists field. split; [done|]. intros s ->. by apply Hsingle.
Qed.

(** X16: outside SDXL mode the tokenizer is called with its own
    [model_max_length]; [captions] holds its ids with every axis of
    size 1 removed, and [attention_mask] is its mask as it is, with the
    leading axis of the batch. *)
Theorem getitem_single_tokenizer self index st out st' :
  sdxl self = false →
  __getitem__ self index st = (Ok out, st') →
  ∃ caption n enc ids,
    model_max_length (tokenizer self) = Some n
    ∧ tokenize (tokenizer self) caption (Some n) = Ok enc
    ∧ input_ids enc = TFTensor ids
    ∧ out !! "captions" = Some (STensor (squeeze ids))
    ∧ out !! "attention_mask" = Some (field_value (attention_mask enc))
    ∧ data (squeeze ids) = data ids
    ∧ 1%nat ∉ shape (squeeze ids).
Proof.
  intros Hsdxl Hrun.
  apply getitem_blocks in Hrun
    as (sample & img & post & ct & cl & st1 & out1 & st2 & caption & out2
        & ids & mask & _ & _ & _ & _ & _ & Htok & ->).
  unfold tokenize_caption in Htok. rewrite Hsdxl in Htok.
  apply result_bind_ok in Htok as (max_length & Hmax & Htok).
  destruct (model_max_length (tokenizer self)) as [n|] eqn:Hn; [|discriminate].
  injection Hmax as <-.
  apply result_bind_ok in Htok as (enc & Henc & Htok).
  destruct (input_ids enc) as [t|l] eqn:Hids; [|discriminate].
  injection Htok as <- <-.
  exists caption, n, enc, t.
  do 3 (split; [done|]). do 2 (split; [by lookup_keys|]). split; [done|].
  simpl. intros [Hone _]%list_elem_of_filter. done.
Qed.

(** X17: a caption field that is an empty list makes [__getitem__]
    fail when the caption is kept: with [IndexError] under the policy
    'first' and with the [ValueError] of [random.sample] under the
    policy 'random'. *)
Theorem getitem_empty_caption_list self index st sample img post ct cl st1 :
  StreamingDataset_getitem (base self) index = Ok sample →
  load_image self sample = Ok img →
  image_transforms self img st = (Ok (post, ct, cl), st1) →
  (sdxl self = true → is_ok (image_size post) = true) →
  (caption_drop_prob self == 0)%Q →
  sample !! caption_key self = Some (PyList []) →
  (caption_selection self = "first" →
   __getitem__ self index st
   = (Raise IndexError, after_draws 1 (before_caption self st1)))
  ∧ (caption_selection self = "random" →
     __getitem__ self index st
     = (Raise (ValueError "Sample larger than population or is negative"),
        after_draws 1 (before_caption self st1))).
Proof.
  intros Hsample Himg Htrans Hsize Hp Hfield.
  destruct (getitem_at_caption _ _ _ _ _ _ _ _ _ Hsample Himg Htrans Hsize)
    as [out1 ->].
  split; intros Hsel.
  all: unfold mbind at 1, M_bind at 1, select_caption.
  all: unfold mbind at 1, M_bind at 1; rewrite torch_rand_run.
  all: rewrite draw_not_below_zero by done.
  all: unfold mbind at 1, M_bind at 1, lift at 1, subscript; rewrite Hfield.
  all: rewrite Hsel; reflexivity.
Qed.

(** X18: a record without the caption field makes [__getitem__] raise
    [KeyError] on the caption key when the caption is kept. *)
Theorem getitem_missing_caption_key self index st sample img post ct cl st1 :
  StreamingDataset_getitem (base self) index = Ok sample →
  load_image self sample = Ok img →
  image_transforms self img st = (Ok (post, ct, cl), st1) →
  (sdxl self = true → is_ok (image_size post) = true) →
  (caption_drop_prob self == 0)%Q →
  sample !! caption_key self = None →
  __getitem__ self index st
  = (Raise (KeyError (caption_key self)),
     after_draws 1 (before_caption self st1)).
Proof.
  intros Hsample Himg Htrans Hsize Hp Hfield.
  destruct (getitem_at_caption _ _ _ _ _ _ _ _ _ Hsample Himg Htrans Hsize)
    as [out1 ->].
  unfold mbind at 1, M_bind at 1, select_caption.
  unfold mbind at 1, M_bind at 1. rewrite torch_rand_run.
  rewrite draw_not_below_zero by done.
  unfold mbind at 1, M_bind at 1, lift at 1, subscript. rewrite Hfield.
  reflexivity.
Qed.

(** X19: a sample of the dataset of a loader the builder returned
    carries the microconditioning vectors exactly when the tokenizer
    identifier given to the builder is the SDXL identifier. *)
Theorem built_dataset_microconditioning a dl index st out st' k :
  build_streaming_image_caption_dataloader a = Ok dl →
  __getitem__ (dataset dl) index st = (Ok out, st') →
  k ∈ ["cond_crops_coords_top_left"; "cond_original_size";
       "cond_target_size"] →
  is_Some (out !! k)
  ↔ Build.tokenizer_name_or_path a
    = "stabilityai/stable-diffusion-xl-base-1.0".
Proof.
  intros Hbuild Hrun Hk.
  apply build_ok_sdxl in Hbuild.
  rewrite <- String.eqb_eq. fold sdxl_tokenizer_name. rewrite <- Hbuild.
  rewrite <- elem_of_dom, (getitem_dom _ _ _ _ _ Hrun). unfold sample_keys.
  rewrite !elem_of_cons, elem_of_nil in Hk.
  destruct (sdxl (dataset dl));
    rewrite !elem_of_union, ?elem_of_empty, !elem_of_singleton.
  - split; [done|]. intros _. left. tauto.
  - split; [|done].
    destruct Hk as [->|[->|[->|[]]]]; intros Hin;
      repeat (destruct Hin as [Hin|Hin]); done.
Qed.

Lemma after_drop_shape dropped a b :
  dtype (after_drop dropped a b) = dt_int64
  ∧ shape (after_drop dropped a b) = [2%nat]
  ∧ length (data (after_drop dropped a b)) = 2%nat.
Proof. by destruct dropped. Qed.

(** X20: in SDXL mode each microconditioning field of a produced
    sample is an int64 tensor of shape [2] with two elements, whether
    its vector was dropped or not. *)
Theorem getitem_microconditioning_shapes self index st out st' k :
  sdxl self = true →
  __getitem__ self index st = (Ok out, st') →
  k ∈ ["cond_crops_coords_top_left"; "cond_original_size";
       "cond_target_size"] →
  ∃ t, out !! k = Some (STensor t)
       ∧ dtype t = dt_int64
       ∧ shape t = [2%nat]
       ∧ length (data t) = 2%nat.
Proof.
  intros Hsdxl Hrun Hk.
  apply getitem_blocks in Hrun
    as (sample & img & post & ct & cl & st1 & out1 & st2 & caption & out2
        & ids & mask & _ & _ & _ & Hcond & Hcap & _ & ->).
  rewrite Hsdxl in Hcond.
  apply microconditioning_run in Hcond as (w & h & _ & Hc1 & Hc2 & Hc3 & _).
  assert (Hout2 : ∀ k, k ≠ "drop_caption_mask" → out2 !! k = out1 !! k).
  { intros k' Hk'.
    apply select_caption_mask in Hcap as [-> | ->];
      by rewrite lookup_insert_ne. }
  rewrite !elem_of_cons, elem_of_nil in Hk.
  destruct Hk as [->|[->|[->|[]]]];
    rewrite lookup_final, Hout2 by done; eexists; (split; [eassumption|]);
    apply after_drop_shape.
Qed.

(** X21: the size read off a tensor image is (width, height), its last
    and its last but one axis; a tensor with fewer than two axes gives
    [IndexError]. *)
Theorem image_size_of_tensor (t : Tensor Q) :
  (∀ pre h w, shape t = pre ++ [h; w] →
     image_size (ImgTensor t) = Ok (Z.of_nat w, Z.of_nat h))
  ∧ ((length (shape t) < 2)%nat →
     image_size (ImgTensor t) = Raise IndexError).
Proof.
  unfold image_size, shape_from_end. split.
  - intros pre h w Hshape. rewrite Hshape, length_app. simpl.
    replace (2 <=? length pre + 2)%nat with true
      by (symmetry; apply Nat.leb_le; lia).
    replace (1 <=? length pre + 2)%nat with true
      by (symmetry; apply Nat.leb_le; lia).
    replace (length pre + 2 - 2)%nat with (length pre + 0)%nat by lia.
    replace (length pre + 2 - 1)%nat with (length pre + 1)%nat by lia.
    rewrite !lookup_app_r by lia.
    replace (length pre + 0 - length pre)%nat with 0%nat by lia.
    replace (length pre + 1 - length pre)%nat with 1%nat by lia.
    replace (length pre + 2)%nat with (S (S (length pre))) by lia.
    reflexivity.
  - intros Hlen.
    replace (2 <=? length (shape t))%nat with false
      by (symmetry; apply Nat.leb_gt; lia).
    reflexivity.
Qed.

End GetitemMore.

(** ** Runs in the small world *)

Module Runs.
Import Demo.

(** A run that produces a sample, named. *)
Ltac produce Hrun :=
  match goal with
  | |- ∃ out st', ?run = (Ok out, st') ∧ _ =>
      let Hok := fresh "Hok" in
      assert (Hok : produced run = true) by (vm_compute; reflexivity);
      unfold produced in Hok;
      destruct run as [[out|e] st'] eqn:Hrun; [|discriminate Hok];
      exists out, st'; split; [reflexivity|]
  end.

(** A field of the sample a run produced. *)
Ltac observe k v Hrun :=
  let Hobs := fresh "Hobs" in
  match type of Hrun with
  | ?run = _ =>
      assert (Hobs : field k run = Some v) by (vm_compute; reflexivity);
      unfold field in Hobs; rewrite Hrun in Hobs; simpl in Hobs
  end.

(** C1: the builder does not reject locations of different lengths or
    of different kinds.  With two remote and three local locations it
    returns a loader over two streams; with a single remote location
    and a list of one local location it returns a loader over one
    stream. *)
Theorem mismatched_locations_are_not_rejected :
  built_streams
    (@build_streaming_image_caption_dataloader W
       (build_args (PyList [PyStr "r1"; PyStr "r2"])
                   (PyList [PyStr "l1"; PyStr "l2"; PyStr "l3"])))
  = Ok [mkStream (PyStr "r1") (PyStr "l1"); mkStream (PyStr "r2") (PyStr "l2")]
  ∧ built_streams
      (@build_streaming_image_caption_dataloader W
         (build_args (PyStr "r") (PyList [PyStr "l"])))
    = Ok [mkStream (PyStr "r") (PyStr "l")].
Proof. split; vm_compute; reflexivity. Qed.

(** C2 as stated fails: 'FIRST' is neither 'first' nor 'random', and
    construction with it succeeds. *)
Lemma upper_case_caption_selection_is_accepted :
  ¬ (∀ (C : Collaborators) (a : Init.Args),
       Init.caption_selection a ≠ "first" →
       Init.caption_selection a ≠ "random" →
       ∃ msg, @__init__ C a = Raise (ValueError msg)).
Proof.
  intros Hclaim.
  destruct (Hclaim W (init_args "FIRST")) as [msg Hmsg]; [done | done |].
  assert (Hok : is_ok (@__init__ W (init_args "FIRST")) = true)
    by (vm_compute; reflexivity).
  rewrite Hmsg in Hok. discriminate Hok.
Qed.

Lemma caption_selection_checked_in_lower_case_witness :
  ∃ ds, @__init__ W (init_args "Random") = Ok ds
        ∧ caption_selection ds = "random".
Proof.
  apply (proj2 (caption_selection_checked_in_lower_case (H := W)
                  (init_args "Random") [] eq_refl)
                (or_intror eq_refl) auto_tokenizer eq_refl).
Defined.

Lemma drop_caption_mask_always_present_witness :
  ∃ out st',
    @__getitem__ W (a_dataset false (1 # 2) 0 "first" true) 0 (constant 5)
    = (Ok out, st')
    ∧ (out !! "drop_caption_mask" = Some (SFloat 0)
       ∨ out !! "drop_caption_mask" = Some (SFloat 1)).
Proof.
  produce Hrun.
  exact (drop_caption_mask_always_present (H := W)
           (a_dataset false (1 # 2) 0 "first" true) 0 (constant 5) out st'
           Hrun).
Defined.

Lemma dropped_caption_is_empty_string_witness :
  ∃ out st',
    @__getitem__ W (a_dataset false 1 0 "first" true) 0 (constant 5)
    = (Ok out, st')
    ∧ (∃ ids mask,
         tokenize_caption (a_dataset false 1 0 "first" true) (PyStr "")
         = Ok (ids, mask)
         ∧ out !! "captions" = Some ids
         ∧ out !! "attention_mask" = Some mask)
    ∧ out !! "drop_caption_mask" = Some (SFloat 0).
Proof.
  produce Hrun.
  exact (dropped_caption_is_empty_string (H := W)
           (a_dataset false 1 0 "first" true) 0 (constant 5) out st'
           (Qeq_refl 1) Hrun).
Defined.

Lemma kept_caption_is_selected_source_caption_witness :
  ∃ out st',
    @__getitem__ W (a_dataset false 0 0 "random" false) 0
      (tapes [5] [3221225472; 1073741824])
    = (Ok out, st')
    ∧ out !! "drop_caption_mask" = Some (SFloat 1)
    ∧ out !! "captions"
      = Some (STensor (mkTensor dt_int64 [6%nat] [97; 32; 112; 117; 112; 112]))
    ∧ py_pos st' = 2%nat
    ∧ ∃ ids mask,
        tokenize_caption (a_dataset false 0 0 "random" false)
          (PyStr "a puppy") = Ok (ids, mask)
        ∧ out !! "captions" = Some ids
        ∧ out !! "attention_mask" = Some mask.
Proof.
  produce Hrun.
  observe "captions"
    (STensor (mkTensor dt_int64 [6%nat] [97; 32; 112; 117; 112; 112])) Hrun.
  destruct (kept_caption_is_selected_source_caption (H := W)
              (a_dataset false 0 0 "random" false) 0
              (tapes [5] [3221225472; 1073741824]) out st' (Qeq_refl 0) Hrun)
    as (Hmask & sample & img & post & ct & cl & st1 & field & caption & ids
        & mask & Hsample & Himg & Htrans & Hfield & Htok & Hids & Hmask'
        & _ & _ & Hrandom).
  assert (sample = record) as -> by (by injection Hsample as <-).
  apply image_transforms_plain in Htrans as (_ & _ & _ & ->);
    [|reflexivity..].
  assert (Hl : field = PyList [PyStr "a dog"; PyStr "a puppy"]).
  { assert (Hcaption : record !! "caption"
                       = Some (PyList [PyStr "a dog"; PyStr "a puppy"]))
      by (vm_compute; reflexivity).
    change (caption_key _) with "caption" in Hfield.
    rewrite Hcaption in Hfield. by injection Hfield as <-. }
  destruct (Hrandom _ Hl eq_refl) as (t & Ht & Hrej & Hacc & Hc & Hpos & _).
  assert (t = 1%nat) as ->.
  { destruct t as [|[|t]]; [|done|].
    - vm_compute in Hacc. destruct Hacc as [_ Hacc]. discriminate Hacc.
    - specialize (Hrej 1%nat ltac:(lia)). vm_compute in Hrej.
      by destruct Hrej. }
  injection Hc as <-.
  split_and!; [exact Hmask | exact Hobs | exact Hpos |].
  exists ids, mask. done.
Defined.

Lemma microcond_all_dropped_gives_zero_vectors_witness :
  ∃ out st',
    @__getitem__ W (a_dataset true 0 1 "first" true) 0 (constant 5)
    = (Ok out, st')
    ∧ out !! "cond_crops_coords_top_left" = Some (STensor (tensor [0; 0]))
    ∧ out !! "cond_original_size" = Some (STensor (tensor [0; 0]))
    ∧ out !! "cond_target_size" = Some (STensor (tensor [0; 0])).
Proof.
  produce Hrun.
  exact (microcond_all_dropped_gives_zero_vectors (H := W)
           (a_dataset true 0 1 "first" true) 0 (constant 5) out st'
           eq_refl (Qeq_refl 1) Hrun).
Defined.

Lemma sdxl_attention_mask_is_logical_or_witness :
  ∃ out st',
    @__getitem__ W (a_dataset true 1 0 "first" true) 0 (constant 5)
    = (Ok out, st')
    ∧ out !! "attention_mask"
      = Some (STensor (mkTensor dt_int64 [1; 6]%nat [1; 0; 0; 0; 0; 0]))
    ∧ out !! "captions"
      = Some (STensor (mkTensor dt_int64 [2; 6]%nat
                         [0; 0; 0; 0; 0; 0; 9; 9; 9; 9; 9; 9]))
    ∧ ∃ enc m0 m1,
        tokenize sdxl_tokenizer (PyStr "") None = Ok enc
        ∧ attention_mask enc = TFList [m0; m1]
        ∧ data m0 = [0; 0; 0; 0; 0; 0]
        ∧ data m1 = [1; 0; 0; 0; 0; 0]
        ∧ ∃ am, out !! "attention_mask" = Some (STensor am)
                ∧ ∀ i x y, data m0 !! i = Some x → data m1 !! i = Some y →
                    data am !! i =
                    Some (if negb (x =? 0) || negb (y =? 0) then 1 else 0).
Proof.
  produce Hrun.
  observe "attention_mask"
    (STensor (mkTensor dt_int64 [1; 6]%nat [1; 0; 0; 0; 0; 0])) Hrun.
  split; [exact Hobs|]. clear Hobs.
  observe "captions"
    (STensor (mkTensor dt_int64 [2; 6]%nat
                [0; 0; 0; 0; 0; 0; 9; 9; 9; 9; 9; 9])) Hrun.
  split; [exact Hobs|]. clear Hobs.
  destruct (sdxl_attention_mask_is_logical_or (H := W)
              (a_dataset true 1 0 "first" true) 0 (constant 5) out st'
              eq_refl Hrun)
    as (caption & enc & seqs & m0 & m1 & captions & am
        & Henc & Hcaption & _ & _ & Hlist & _ & _ & Ham & _ & _ & _ & _ & _
        & Hsame).
  rewrite (Hcaption (Qeq_refl 1)) in Henc.
  exists enc, m0, m1. split; [exact Henc|].
  injection Henc as <-.
  destruct (Hlist _ eq_refl) as [[= <-] [= <-]].
  split_and!; [reflexivity.. |].
  exists am. split; [exact Ham|].
  apply Hsame; reflexivity.
Defined.

(** C7 as stated fails: with a microconditioning-drop probability of
    1.0 and no crop, the 4x2 image of the record gets a
    [cond_original_size] of (0, 0). *)
Lemma no_crop_original_size_may_be_zeroed :
  ¬ (∀ (C : Collaborators) (self : @StreamingImageCaptionDataset C)
       index st out st' sample img W0 H0,
       sdxl self = true →
       crop self = None →
       StreamingDataset_getitem (base self) index = Ok sample →
       load_image self sample = Ok img →
       im_size img = (W0, H0) →
       __getitem__ self index st = (Ok out, st') →
       out !! "cond_original_size" = Some (STensor (tensor [W0; H0]))).
Proof.
  intros Hclaim.
  assert (∃ out st',
            @__getitem__ W (a_dataset true 0 1 "first" true) 0 (constant 5)
            = (Ok out, st')
            ∧ out !! "cond_original_size" = Some (STensor (tensor [0; 0])))
    as (out & st' & Hrun & Hzero).
  { produce Hrun. observe "cond_original_size" (STensor (tensor [0; 0])) Hrun.
    exact Hobs. }
  assert (Himg : load_image (a_dataset true 0 1 "first" true) record
                 = Ok (mkImage "RGB" (4, 2) [10; 20; 30; 40; 50; 60; 70; 80]))
    by (vm_compute; reflexivity).
  specialize (Hclaim W (a_dataset true 0 1 "first" true) 0 (constant 5)
                out st' record _ 4 2 eq_refl eq_refl eq_refl Himg eq_refl Hrun).
  rewrite Hzero in Hclaim. discriminate Hclaim.
Qed.

Lemma no_crop_microconditioning_sizes_witness :
  ∃ out st',
    @__getitem__ W (a_dataset true 0 0 "first" true) 0 (constant 5)
    = (Ok out, st')
    ∧ ∃ post w h,
        out !! "image" = Some (SImage post)
        ∧ image_size post = Ok (w, h)
        ∧ out !! "cond_crops_coords_top_left" = Some (STensor (tensor [0; 0]))
        ∧ (out !! "cond_original_size" = Some (STensor (tensor [4; 2]))
           ∨ (0 < 0)%Q
             ∧ out !! "cond_original_size" = Some (STensor (tensor [0; 0])))
        ∧ (out !! "cond_target_size" = Some (STensor (tensor [w; h]))
           ∨ (0 < 0)%Q
             ∧ out !! "cond_target_size" = Some (STensor (tensor [0; 0]))).
Proof.
  produce Hrun.
  assert (Himg : load_image (a_dataset true 0 0 "first" true) record
                 = Ok (mkImage "RGB" (4, 2) [10; 20; 30; 40; 50; 60; 70; 80]))
    by (vm_compute; reflexivity).
  exact (no_crop_microconditioning_sizes (H := W)
           (a_dataset true 0 0 "first" true) 0 (constant 5) out st' record
           _ 4 2 eq_refl eq_refl eq_refl Himg eq_refl Hrun).
Defined.



(** The draws are separate: on a tape whose second word is high and
    whose first and third are low, with probability 1/2, the original
    size is kept and the target size is set to zero. *)
Example microcond_draws_differ :
  ∃ out st',
    @__getitem__ W (a_dataset true 0 (1 # 2) "first" true) 0
      (tape [0; 16777215; 0; 16777215])
    = (Ok out, st')
    ∧ out !! "cond_original_size" = Some (STensor (tensor [4; 2]))
    ∧ out !! "cond_target_size" = Some (STensor (tensor [0; 0])).
Proof.
  produce Hrun. split.
  - observe "cond_original_size" (STensor (tensor [4; 2])) Hrun. exact Hobs.
  - observe "cond_target_size" (STensor (tensor [0; 0])) Hrun. exact Hobs.
Qed.

Lemma sdxl_mode_follows_tokenizer_name_witness :
  ∃ dl,
    @build_streaming_image_caption_dataloader W
      (build_args (PyStr "remote") (PyStr "local")) = Ok dl
    ∧ sdxl (dataset dl) = false.
Proof.
  assert (Hok : is_ok (@build_streaming_image_caption_dataloader W
                         (build_args (PyStr "remote") (PyStr "local")))
                = true) by (vm_compute; reflexivity).
  destruct (@build_streaming_image_caption_dataloader W
              (build_args (PyStr "remote") (PyStr "local")))
    as [dl|e] eqn:Hbuild; [|discriminate Hok].
  exists dl. split; [reflexivity|].
  destruct (sdxl (dataset dl)) eqn:Hmode; [|reflexivity].
  apply (sdxl_mode_follows_tokenizer_name (H := W) _ dl Hbuild) in Hmode.
  discriminate Hmode.
Defined.

End Runs.

(** ** More runs in the small world *)

Module MoreRuns.
Import Demo DemoMore.

(** A call of the builder that returns a loader, named. *)
Ltac build Hbuild :=
  match goal with
  | |- ∃ dl, ?call = Ok dl ∧ _ =>
      let Hok := fresh "Hok" in
      assert (Hok : is_ok call = true) by (vm_compute; reflexivity);
      destruct call as [dl|e] eqn:Hbuild; [|discriminate Hok];
      exists dl; split; [reflexivity|]
  end.

Lemma build_rejects_invalid_crop_type_witness :
  @build_streaming_image_caption_dataloader W
    (configured (PyStr "r") (PyStr "l") "stabilityai/stable-diffusion-2-base"
                (Some "Diagonal") None)
  = Raise (invalid_crop_type "diagonal").
Proof.
  apply (build_rejects_invalid_crop_type (H := W)
           (configured (PyStr "r") (PyStr "l")
              "stabilityai/stable-diffusion-2-base" (Some "Diagonal") None)
           "Diagonal"); [reflexivity | discriminate..].
Defined.

Lemma build_crop_follows_crop_type_witness :
  ∃ dl,
    @build_streaming_image_caption_dataloader W
      (configured (PyStr "r") (PyStr "l") "stabilityai/stable-diffusion-2-base"
                  (Some "Random") None) = Ok dl
    ∧ crop (dataset dl) = Some (center_square 256).
Proof.
  build Hbuild.
  exact (proj1 (proj2 (proj2 (build_crop_follows_crop_type (H := W) _ dl Hbuild)
                         "Random" eq_refl)) eq_refl).
Defined.

Lemma build_forwards_configuration_witness :
  ∃ dl,
    @build_streaming_image_caption_dataloader W
      (build_args (PyStr "r") (PyStr "l")) = Ok dl
    ∧ zero_dropped_captions (dataset dl) = true
    ∧ dl_batch_size dl = 8.
Proof.
  build Hbuild.
  destruct (build_forwards_configuration (H := W) _ dl Hbuild)
    as (_ & _ & Hzero & _ & _ & _ & _ & Hbs & _).
  exact (conj Hzero Hbs).
Defined.

Lemma build_returns_only_for_valid_configuration_witness :
  ∃ dl,
    @build_streaming_image_caption_dataloader W
      (build_args (PyStr "r") (PyStr "l")) = Ok dl
    ∧ valid_crop_type (Some "square") = true.
Proof.
  build Hbuild.
  exact (proj1 (build_returns_only_for_valid_configuration (H := W) _ dl
                  Hbuild)).
Defined.

Lemma build_non_sequence_location_raises_type_error_witness :
  @build_streaming_image_caption_dataloader W
    (build_args PyNone (PyList [PyStr "l"]))
  = Raise (TypeError "object is not iterable").
Proof.
  apply (build_non_sequence_location_raises_type_error (H := W)
           (build_args PyNone (PyList [PyStr "l"]))); [reflexivity|].
  left. reflexivity.
Defined.

Lemma build_repeated_keyword_raises_type_error_witness :
  ∃ msg,
    @build_streaming_image_caption_dataloader W
      (configured (PyStr "r") (PyStr "l") "stabilityai/stable-diffusion-2-base"
                  (Some "square") (Some {["sdxl" := PyBool true]}))
    = Raise (TypeError msg).
Proof.
  apply (build_repeated_keyword_raises_type_error (H := W)
           (configured (PyStr "r") (PyStr "l")
              "stabilityai/stable-diffusion-2-base" (Some "square")
              (Some {["sdxl" := PyBool true]}))
           {["sdxl" := PyBool true]} "sdxl");
    [reflexivity | reflexivity | reflexivity | reflexivity | |].
  - unfold dataset_keywords. rewrite !elem_of_cons. tauto.
  - rewrite lookup_singleton_eq. eauto.
Defined.

Lemma build_initialises_base_with_streams_witness :
  ∃ dl,
    @build_streaming_image_caption_dataloader W
      (build_args (PyList [PyStr "r1"; PyStr "r2"])
                  (PyList [PyStr "l1"; PyStr "l2"; PyStr "l3"])) = Ok dl
    ∧ ∃ (streams : list Stream) (kwargs : gmap string PyVal),
        length streams = 2%nat
        ∧ kwargs !! "batch_size" = Some (PyInt 8).
Proof.
  build Hbuild.
  destruct (build_initialises_base_with_streams (H := W) _ dl Hbuild)
    as (rs & ls & streams & kwargs & Hrs & Hls & _ & Hlen & _ & Hbs).
  injection Hrs as <-. injection Hls as <-.
  exists streams, kwargs. split; [exact Hlen | exact Hbs].
Defined.

Lemma init_base_and_tokenizer_witness :
  ∃ ds,
    @__init__ W (init_args "first") = Ok ds
    ∧ @AutoTokenizer_from_pretrained W "stabilityai/stable-diffusion-2-base"
        "tokenizer" = Ok (tokenizer ds).
Proof.
  assert (Hok : is_ok (@__init__ W (init_args "first")) = true)
    by (vm_compute; reflexivity).
  destruct (@__init__ W (init_args "first")) as [ds|e] eqn:Hinit;
    [|discriminate Hok].
  exists ds. split; [reflexivity|].
  destruct (init_base_and_tokenizer (H := W) _ ds Hinit) as (_ & _ & Hauto).
  apply Hauto.
  destruct (init_fields (H := W) _ ds Hinit) as (_ & _ & Hsdxl & _).
  exact Hsdxl.
Defined.

Lemma getitem_missing_image_key_witness :
  @__getitem__ (world [record_without_image])
    (dataset_over record_without_image false 0 "first" None) 0 (constant 5)
  = (Raise (KeyError "image"), constant 5).
Proof.
  apply (getitem_missing_image_key (H := world [record_without_image])
           (dataset_over record_without_image false 0 "first" None) 0
           (constant 5) record_without_image);
    [reflexivity | vm_compute; reflexivity].
Defined.

Lemma getitem_unsupported_image_witness :
  @__getitem__ W (dataset_over record true 0 "first" (Some to_none)) 0
    (constant 5)
  = (Raise unsupported_image, constant 5).
Proof.
  apply (getitem_unsupported_image (H := W)
           (dataset_over record true 0 "first" (Some to_none)) 0 (constant 5)
           record (mkImage "RGB" (4, 2) [10; 20; 30; 40; 50; 60; 70; 80])
           PyNone 0 0 (constant 5));
    [reflexivity | reflexivity | vm_compute; reflexivity | reflexivity].
Defined.

Lemma load_image_is_rgb_witness :
  ∃ img,
    @load_image (world [record_with_grey_image])
      (dataset_over record_with_grey_image false 0 "first" None)
      record_with_grey_image = Ok img
    ∧ im_mode img = "RGB"
    ∧ im_size img = (4, 2).
Proof.
  assert (Hok : is_ok (@load_image (world [record_with_grey_image])
                         (dataset_over record_with_grey_image false 0 "first"
                            None) record_with_grey_image) = true)
    by (vm_compute; reflexivity).
  destruct (@load_image (world [record_with_grey_image]) _ _)
    as [img|e] eqn:Hload; [|discriminate Hok].
  exists img. split; [reflexivity|].
  destruct (load_image_is_rgb (H := world [record_with_grey_image])
              _ _ img Hload) as [Hmode Hsize].
  split; [exact Hmode|].
  apply (Hsize grey_image). vm_compute; reflexivity.
Defined.

Lemma getitem_draws_witness :
  ∃ out st',
    @__getitem__ W (dataset_over record true 0 "random" None) 0
      (tapes [5; 5; 5; 5] [3221225472; 1073741824])
    = (Ok out, st')
    ∧ torch_pos st' = 4%nat
    ∧ py_pos st' = 2%nat.
Proof.
  Runs.produce Hrun.
  assert (Hstepped : py_pos st' ≠ 0%nat).
  { assert (Hobs : py_pos
                     (@__getitem__ W (dataset_over record true 0 "random" None)
                        0 (tapes [5; 5; 5; 5] [3221225472; 1073741824])).2
                   = 2%nat) by (vm_compute; reflexivity).
    rewrite Hrun in Hobs. simpl in Hobs. by rewrite Hobs. }
  destruct (getitem_draws (H := W) (dataset_over record true 0 "random" None)
              0 (tapes [5; 5; 5; 5] [3221225472; 1073741824]) out st'
              eq_refl eq_refl Hrun)
    as (_ & Hpos & _ & [Hpy | (_ & sample & l & t & Hsample & Hfield & Ht
                               & Hrej & Hacc & _ & Hsmall)]);
    [done|].
  split; [exact Hpos|].
  assert (sample = record) as -> by (by injection Hsample as <-).
  assert (Hcaption : record !! "caption"
                     = Some (PyList [PyStr "a dog"; PyStr "a puppy"]))
    by (vm_compute; reflexivity).
  change (caption_key _) with "caption" in Hfield.
  rewrite Hcaption in Hfield. injection Hfield as <-.
  destruct (Hsmall ltac:(done)) as [Hpy _].
  assert (t = 1%nat) as ->; [|exact Hpy].
  destruct t as [|[|t]]; [|done|].
  - vm_compute in Hacc. discriminate Hacc.
  - specialize (Hrej 1%nat ltac:(lia)). vm_compute in Hrej.
    by destruct Hrej.
Defined.

Lemma getitem_sample_keys_witness :
  ∃ out st',
    @__getitem__ W (dataset_over record true 0 "first" None) 0 (constant 5)
    = (Ok out, st')
    ∧ is_Some (out !! "cond_target_size")
    ∧ ¬ is_Some (out !! "caption").
Proof.
  Runs.produce Hrun.
  split.
  - apply (getitem_sample_keys (H := W)
             (dataset_over record true 0 "first" None) 0 (constant 5) out st'
             "cond_target_size" Hrun).
    vm_compute; reflexivity.
  - intros Hin.
    apply (getitem_sample_keys (H := W)
             (dataset_over record true 0 "first" None) 0 (constant 5) out st'
             "caption" Hrun) in Hin.
    vm_compute in Hin. discriminate Hin.
Defined.

Lemma getitem_caption_dropout_witness :
  drop_threshold seven_tenths = 11744051
  ∧ (∃ out st',
       @__getitem__ W (dataset_over record false seven_tenths "first" None) 0
         (tape [11744051])
       = (Ok out, st')
       ∧ out !! "drop_caption_mask" = Some (SFloat 1)
       ∧ out !! "captions"
         = Some (STensor (mkTensor dt_int64 [6%nat]
                            [97; 32; 100; 111; 103; 0])))
  ∧ (∃ out st',
       @__getitem__ W (dataset_over record false seven_tenths "first" None) 0
         (tape [11744050])
       = (Ok out, st')
       ∧ out !! "drop_caption_mask" = Some (SFloat 0)
       ∧ out !! "captions"
         = Some (STensor (mkTensor dt_int64 [6%nat] [0; 0; 0; 0; 0; 0]))).
Proof.
  assert (Hthreshold : drop_threshold seven_tenths = 11744051)
    by (vm_compute; reflexivity).
  split; [exact Hthreshold|]. split.
  - Runs.produce Hrun.
    Runs.observe "captions"
      (STensor (mkTensor dt_int64 [6%nat] [97; 32; 100; 111; 103; 0])) Hrun.
    split; [|exact Hobs].
    destruct (getitem_caption_dropout (H := W)
                (dataset_over record false seven_tenths "first" None) 0
                (tape [11744051]) out st' Hrun)
      as (sample & img & post & ct & cl & st1 & caption & ids & mask
          & _ & _ & Htrans & _ & _ & _ & _ & _ & Hmask & _).
    apply image_transforms_plain in Htrans as (_ & _ & _ & ->);
      [|reflexivity..].
    change (caption_drop_prob _) with seven_tenths in Hmask.
    rewrite Hthreshold in Hmask. exact Hmask.
  - Runs.produce Hrun.
    destruct (getitem_caption_dropout (H := W)
                (dataset_over record false seven_tenths "first" None) 0
                (tape [11744050]) out st' Hrun)
      as (sample & img & post & ct & cl & st1 & caption & ids & mask
          & _ & _ & Htrans & Htok & Hids & _ & Hdropped & _ & Hmask & _).
    apply image_transforms_plain in Htrans as (_ & _ & _ & ->);
      [|reflexivity..].
    change (caption_drop_prob _) with seven_tenths in Hmask, Hdropped.
    rewrite Hthreshold in Hmask, Hdropped.
    split; [exact Hmask|].
    rewrite (Hdropped eq_refl) in Htok.
    injection Htok as <- _. exact Hids.
Defined.

Lemma getitem_single_tokenizer_witness :
  ∃ out st',
    @__getitem__ W (dataset_over record false 0 "first" None) 0 (constant 5)
    = (Ok out, st')
    ∧ ∃ ids, out !! "captions" = Some (STensor (squeeze ids)).
Proof.
  Runs.produce Hrun.
  destruct (getitem_single_tokenizer (H := W)
              (dataset_over record false 0 "first" None) 0 (constant 5)
              out st' eq_refl Hrun)
    as (caption & n & enc & ids & _ & _ & _ & Hids & _).
  exists ids. exact Hids.
Defined.

Lemma getitem_empty_caption_list_witness :
  @__getitem__ (world [record_without_candidates])
    (dataset_over record_without_candidates false 0 "first" None) 0
    (constant 5)
  = (Raise IndexError,
     after_draws 1
       (before_caption
          (dataset_over record_without_candidates false 0 "first" None)
          (constant 5))).
Proof.
  apply (getitem_empty_caption_list (H := world [record_without_candidates])
           (dataset_over record_without_candidates false 0 "first" None) 0
           (constant 5) record_without_candidates
           (mkImage "RGB" (4, 2) [10; 20; 30; 40; 50; 60; 70; 80])
           (ImgPIL (mkImage "RGB" (4, 2) [10; 20; 30; 40; 50; 60; 70; 80]))
           0 0 (constant 5));
    [reflexivity | vm_compute; reflexivity | reflexivity | discriminate
    | reflexivity | vm_compute; reflexivity | reflexivity].
Defined.

Lemma getitem_missing_caption_key_witness :
  @__getitem__ (world [record_without_caption])
    (dataset_over record_without_caption false 0 "first" None) 0
    (constant 5)
  = (Raise (KeyError "caption"),
     after_draws 1
       (before_caption
          (dataset_over record_without_caption false 0 "first" None)
          (constant 5))).
Proof.
  apply (getitem_missing_caption_key (H := world [record_without_caption])
           (dataset_over record_without_caption false 0 "first" None) 0
           (constant 5) record_without_caption
           (mkImage "RGB" (4, 2) [10; 20; 30; 40; 50; 60; 70; 80])
           (ImgPIL (mkImage "RGB" (4, 2) [10; 20; 30; 40; 50; 60; 70; 80]))
           0 0 (constant 5));
    [reflexivity | vm_compute; reflexivity | reflexivity | discriminate
    | reflexivity | vm_compute; reflexivity].
Defined.

Lemma getitem_microconditioning_shapes_witness :
  ∃ out st',
    @__getitem__ W (dataset_over record true 0 "first" None) 0 (constant 5)
    = (Ok out, st')
    ∧ ∃ t, out !! "cond_original_size" = Some (STensor t)
           ∧ shape t = [2%nat].
Proof.
  Runs.produce Hrun.
  destruct (getitem_microconditioning_shapes (H := W)
              (dataset_over record true 0 "first" None) 0 (constant 5)
              out st' "cond_original_size" eq_refl Hrun)
    as (t & Ht & _ & Hshape & _).
  - rewrite !elem_of_cons. tauto.
  - exists t. split; [exact Ht | exact Hshape].
Defined.

Lemma built_dataset_microconditioning_witness :
  ∃ dl,
    @build_streaming_image_caption_dataloader W
      (configured (PyStr "r") (PyStr "l")
         "stabilityai/stable-diffusion-xl-base-1.0" (Some "square") None)
    = Ok dl
    ∧ ∃ out st',
        __getitem__ (dataset dl) 0 (constant 5) = (Ok out, st')
        ∧ is_Some (out !! "cond_original_size").
Proof.
  assert (Hok : built_produces
                  (@build_streaming_image_caption_dataloader W
                     (configured (PyStr "r") (PyStr "l")
                        "stabilityai/stable-diffusion-xl-base-1.0"
                        (Some "square") None)) 0 (constant 5) = true)
    by (vm_compute; reflexivity).
  unfold built_produces in Hok.
  destruct (@build_streaming_image_caption_dataloader W _)
    as [dl|e] eqn:Hbuild; [|discriminate Hok].
  exists dl. split; [reflexivity|].
  unfold produced in Hok.
  destruct (__getitem__ (dataset dl) 0 (constant 5))
    as [[out|e] st'] eqn:Hrun; [|discriminate Hok].
  exists out, st'. split; [reflexivity|].
  apply (built_dataset_microconditioning (H := W) _ dl 0 (constant 5) out st'
           "cond_original_size" Hbuild Hrun).
  - rewrite !elem_of_cons. tauto.
  - reflexivity.
Defined.

End MoreRuns.
